(** * yt-vid-downloader: the retry loop around ffmpeg, the three-stage
    segment download and the subset scheduler of [download.py]

  The development is a shallow embedding of [src/download.py].  Python
  values are modelled by the Rocq data closest to them: [str] by [string],
  [int] by [Z], lists of argument tokens by [list string], the set of
  existing paths of the filesystem by a [gset string].  Effects (running the
  external tool, deleting files, logging, printing, submitting to the worker
  pool) are threaded through an explicit [world] that also records a trace
  of every effect, in program order.  Exceptions are the [Raise] results of a
  small state-and-exception monad. *)

From Stdlib Require Import ZArith Ascii String.
From stdpp Require Import gmap strings list pretty.

Local Open Scope Z_scope.
Set Warnings "-clear-no-such-hyp".

(** ** Python string methods used by the source *)

Module PyStr.

(** Code points below 256 for which [str.isspace] holds; these are the
    characters [str.rstrip()] removes. *)
Definition is_space (c : ascii) : bool :=
  let n := nat_of_ascii c in
  ((9 <=? n)%nat && (n <=? 13)%nat) || ((28 <=? n)%nat && (n <=? 32)%nat)
  || (n =? 133)%nat || (n =? 160)%nat.

Fixpoint lstrip_chars (l : list ascii) : list ascii :=
  match l with
  | c :: l' => if is_space c then lstrip_chars l' else l
  | [] => []
  end.

(** [s.rstrip()] *)
Definition rstrip (s : string) : string :=
  string_of_list_ascii (rev (lstrip_chars (rev (list_ascii_of_string s)))).

Fixpoint starts_chars (p l : list ascii) : bool :=
  match p, l with
  | [], _ => true
  | a :: p', b :: l' => bool_decide (a = b) && starts_chars p' l'
  | _ :: _, [] => false
  end.

(** [s.startswith(p)] *)
Definition startswith (s p : string) : bool :=
  starts_chars (list_ascii_of_string p) (list_ascii_of_string s).

(** [s.endswith(p)] *)
Definition endswith (s p : string) : bool :=
  starts_chars (rev (list_ascii_of_string p)) (rev (list_ascii_of_string s)).

(** [l.index(x)]: the first position of [x]; [None] stands for the
    [ValueError] Python raises when [x] is absent. *)
Definition index (x : string) (l : list string) : option nat :=
  fst <$> list_find (λ y, y = x) l.

(** [posixpath.join(a, b)] for one more component. *)
Definition join2 (path b : string) : string :=
  if startswith b "/" then b
  else if bool_decide (path = "") || endswith path "/" then path +:+ b
  else path +:+ "/" +:+ b.

(** [os.path.join(a, b, c)] *)
Definition join (a b c : string) : string := join2 (join2 a b) c.

End PyStr.

(** ** Numbers

  The source converts between [float], [int] and [str] with the Python
  builtins.  The embedding is parametric in them: a [PyNum] instance gives
  the float type with its addition and subtraction, [float(n)] on integers
  ([None] is the [OverflowError] of an integer beyond the range of floats),
  [float(s)] and [int(s)] on strings ([None] is the [ValueError] of a string
  that does not parse) and [str(x)] on floats.  [str(n)] on integers is
  decimal printing, [pretty] on [Z]. *)

Class PyNum := {
  float : Type;
  fadd : float → float → float;
  fsub : float → float → float;
  float_of_int : Z → option float;
  float_of_str : string → option float;
  int_of_str : string → option Z;
  str_of_float : float → string;
}.

Definition str_of_int (n : Z) : string := pretty n.

(** ** Exceptions, errors and effects *)

(** Exceptions that leave the modelled functions. *)
Inductive exn :=
| ValueError
| IndexError
| TypeError
| NotImplementedError (video_codec : string)
| MediaInfoError
| OverflowError.

(** The outcome of a call: a returned value or a raised exception. *)
Inductive result (A : Type) :=
| Return (a : A)
| Raise (e : exn).
Arguments Return {A} a.
Arguments Raise {A} e.

(** [input_path] of [ffmpeg]: a [str], an iterable of paths, or a value that
    is neither.  The test [isinstance(input_path, collections.Iterable)] is
    read on a Python that still has this alias (up to 3.9), which is what the
    source is written for. *)
Inductive input_path :=
| InStr (s : string)
| InIterable (l : list string)
| InOther.

Section Downloader.

Context `{PyNum}.

(** The three exception classes the retry loop catches, with the attributes
    the handlers read. *)
Inductive ffmpeg_error :=
| SubprocessError (cmd_stderr : string)
| FfmpegIncorrectDurationError (target_duration actual_duration : float)
| FfmpegValidationError (msg : string).

Inductive level := INFO | WARNING | ERROR.

(** One constructor per message template of the source, with the values
    substituted into it. *)
Inductive log_msg :=
| MsgAlreadyExists (output_path : string)
| MsgRetrying (e : ffmpeg_error)
| MsgDurationRetrying (e : ffmpeg_error)
| MsgDidNotValidate (output_path : string) (e : ffmpeg_error)
| MsgMaxRetries (num_retries : Z) (inp : input_path)
    (last_err : option ffmpeg_error)
| MsgDownloaded (ytid : string) (ts_start ts_end : float)
| MsgAttempting (ytid : string) (ts_start ts_end : float)
| MsgWorkerError (ytid : string) (e : exn)
| MsgAlreadyDownloaded (ytid : string) (ts_start ts_end : float)
| MsgStarting (subset_name : string)
| MsgFinished (subset_name : string).

(** [**ffmpeg_cfg]: the keyword arguments that travel from the command line
    to [download_yt_video]; a key may be absent. *)
Record kwargs := Kwargs {
  kw_audio_codec : option string;
  kw_audio_format : option string;
  kw_audio_sample_rate : option Z;
  kw_audio_bit_depth : option Z;
  kw_video_codec : option string;
  kw_video_format : option string;
  kw_video_mode : option string;
  kw_video_frame_rate : option Z;
  kw_num_retries : option Z;
}.

(** A job handed to [pool.apply_async]: the positional [worker_args] and the
    keyword arguments bound by [partial]. *)
Record job := Job {
  job_ytid : string;
  job_ts_start : float;
  job_ts_end : float;
  job_data_dir : string;
  job_ffmpeg_path : string;
  job_ffprobe_path : string;
  job_cfg : kwargs;
}.

Inductive event :=
| ERun (args : list string)
| ERemove (path : string)
| ELog (lvl : level) (msg : log_msg)
| EPrint (s : string)
| EGetFormats (ytid : string)
| EPool (num_workers : Z)
| EApplyAsync (j : job)
| EPoolClose
| EPoolJoin.

(** ** The world

    [Env] is the state of everything outside the program that the external
    tool depends on (the network, the remote media). *)
Context {Env : Type}.

Record world := World {
  fs : gset string;
  env : Env;
  trace : list event;
}.

Inductive run_result :=
| RunOk
| RunFailed (cmd_stderr : string).

(** External collaborators; their code is not part of [download.py].
    [run_command] runs the tool on an argument vector and may create or
    delete files; a failed run is the [SubprocessError] it raises.
    [HTTP_ERR_PATTERN_match s] is [HTTP_ERR_PATTERN.match(s)] being a match.
    [getFormats_url] is [Video.getFormats(ytid)] followed by the selection of
    the last format's url; [None] is any exception on the way.
    [csv_rows path] is the sequence of rows [csv.reader] yields for the file
    at [path]. *)
Variable run_command :
  list string → gset string → Env → run_result * gset string * Env.
Variable HTTP_ERR_PATTERN_match : string → bool.
Variable get_media_filename : string → float → float → string.
Variable get_subset_name : string → string.
Variable getFormats_url : string → Env → option string.
Variable csv_rows : string → list (list string).

(** A validation callback, already applied to its keyword arguments: it
    inspects the output file and either returns or raises one of the errors
    the loop catches. *)
Definition callback := string → gset string → Env → option ffmpeg_error * Env.

(** ** A state and exception monad over the world *)

Definition M (A : Type) : Type := world → result A * world.

Definition ret {A} (a : A) : M A := λ w, (Return a, w).
Definition raise {A} (e : exn) : M A := λ w, (Raise e, w).
Definition bind {A B} (m : M A) (k : A → M B) : M B :=
  λ w, match m w with
       | (Return a, w') => k a w'
       | (Raise e, w') => (Raise e, w')
       end.

Declare Scope M_scope.
Delimit Scope M_scope with M.
Bind Scope M_scope with M.
Notation "x <- m ;; k" := (bind m (λ x, k))
  (at level 100, m at next level, k at level 200, right associativity) : M_scope.
Notation "m ;; k" := (bind m (λ _, k))
  (at level 100, k at level 200, right associativity) : M_scope.
Local Open Scope M_scope.

Definition emit (e : event) : M unit :=
  λ w, (Return tt, World (fs w) (env w) (trace w ++ [e])).

Definition log (lvl : level) (msg : log_msg) : M unit := emit (ELog lvl msg).

(** [os.path.exists(p)] *)
Definition path_exists (p : string) : M bool :=
  λ w, (Return (bool_decide (p ∈ fs w)), w).

(** [os.remove(p)] on an existing path *)
Definition remove (p : string) : M unit :=
  λ w, (Return tt, World (fs w ∖ {[p]}) (env w) (trace w ++ [ERemove p])).

(** [if os.path.exists(p): os.remove(p)] *)
Definition remove_if_exists (p : string) : M unit :=
  b <- path_exists p;; if b then remove p else ret tt.

(** ** [ffmpeg]: one external-tool invocation with retries *)

(** The [inputs] list built from [input_path]; [None] is the [ValueError] of
    the final [else]. *)
Definition expand_inputs (ip : input_path) : option (list string) :=
  match ip with
  | InStr s => Some ["-i"; s]
  | InIterable l => Some (concat ((λ path, ["-i"; path]) <$> l))
  | InOther => None
  end.

(** The local variables the loop reads and rebinds or mutates. *)
Record locals := Locals {
  input_args : list string;
  output_args : list string;
  last_err : option ffmpeg_error;
}.

(** How one iteration of the [for] loop ends. *)
Inductive ctl :=
| Break
| Continue
| Propagate (e : exn).

(** [l[i] = str(float(l[i]) + duration_diff)] with [i = l.index('-t') + 1];
    the three ways it can raise are kept apart. *)
Definition bump_duration (l : list string) (duration_diff : float)
    : exn + list string :=
  match PyStr.index "-t" l with
  | None => inl ValueError
  | Some i =>
      let duration_idx := (i + 1)%nat in
      match l !! duration_idx with
      | None => inl IndexError
      | Some v =>
          match float_of_str v with
          | None => inl ValueError
          | Some x =>
              inr (<[duration_idx := str_of_float (fadd x duration_diff)]> l)
          end
      end
  end.

(** The [try: ... except ValueError: ...] of the duration handler: the
    [ValueError] of the attempt on [input_args] (no ['-t'] token, or a value
    that is not a float) hands over to [output_args]; whatever the second
    attempt raises propagates, as does an [IndexError] of the first. *)
Definition adjust_duration (ia oa : list string) (duration_diff : float)
    : exn + (list string * list string) :=
  match bump_duration ia duration_diff with
  | inr ia' => inr (ia', oa)
  | inl ValueError =>
      match bump_duration oa duration_diff with
      | inr oa' => inr (ia, oa')
      | inl e => inl e
      end
  | inl e => inl e
  end.

Section Ffmpeg.

Variables (ffmpeg_path : string) (inp : input_path) (inputs : list string)
  (output_path : string) (log_level : string) (num_retries : Z)
  (validation_callback : option callback).

(** The argument vector of an attempt. *)
Definition ffmpeg_args (l : locals) : list string :=
  [ffmpeg_path] ++ input_args l ++ inputs ++
  output_args l ++ [output_path; "-loglevel"; log_level].

(** The body of the [try]: run the tool, then validate when a callback was
    passed.  [Some e] is the exception raised, [None] a normal completion. *)
Definition try_body (l : locals) : M (option ffmpeg_error) :=
  λ w,
    let args := ffmpeg_args l in
    let w0 := World (fs w) (env w) (trace w ++ [ERun args]) in
    match run_command args (fs w0) (env w0) with
    | (RunFailed stderr, fs1, env1) =>
        (Return (Some (SubprocessError stderr)), World fs1 env1 (trace w0))
    | (RunOk, fs1, env1) =>
        match validation_callback with
        | None => (Return None, World fs1 env1 (trace w0))
        | Some cb =>
            let '(r, env2) := cb output_path fs1 env1 in
            (Return r, World fs1 env2 (trace w0))
        end
    end.

(** [if attempt < num_retries - 1 and os.path.exists(output_path):
    os.remove(output_path)] *)
Definition remove_unless_last (attempt : Z) : M unit :=
  if bool_decide (attempt < num_retries - 1) then remove_if_exists output_path
  else ret tt.

(** One iteration: the [try] body and the handler of what it raised. *)
Definition ffmpeg_attempt (attempt : Z) (l : locals) : M (ctl * locals) :=
  r <- try_body l;;
  match r with
  | None => ret (Break, l)
  | Some (SubprocessError cmd_stderr as e) =>
      let l := Locals (input_args l) (output_args l) (Some e) in
      let stderr := PyStr.rstrip cmd_stderr in
      if PyStr.endswith stderr "already exists. Exiting." then
        log INFO (MsgAlreadyExists output_path);;
        ret (Break, l)
      else if HTTP_ERR_PATTERN_match stderr then
        ret (Continue, l)
      else
        log ERROR (MsgRetrying e);;
        remove_if_exists output_path;;
        ret (Continue, l)
  | Some (FfmpegIncorrectDurationError target_duration actual_duration as e) =>
      let l := Locals (input_args l) (output_args l) (Some e) in
      remove_unless_last attempt;;
      let duration_diff := fsub target_duration actual_duration in
      match adjust_duration (input_args l) (output_args l) duration_diff with
      | inl ex => ret (Propagate ex, l)
      | inr (ia, oa) =>
          let l := Locals ia oa (last_err l) in
          log WARNING (MsgDurationRetrying e);;
          ret (Continue, l)
      end
  | Some (FfmpegValidationError _ as e) =>
      let l := Locals (input_args l) (output_args l) (Some e) in
      remove_unless_last attempt;;
      log INFO (MsgDidNotValidate output_path e);;
      ret (Continue, l)
  end.

(** [for attempt in ...: ... else: ...] over the remaining attempts; the
    [else] clause runs when the attempts run out without a [break]. *)
Fixpoint ffmpeg_for (attempts : list Z) (l : locals) : M locals :=
  match attempts with
  | [] =>
      log ERROR (MsgMaxRetries num_retries inp (last_err l));;
      ret l
  | attempt :: rest =>
      r <- ffmpeg_attempt attempt l;;
      match r with
      | (Break, l') => ret l'
      | (Continue, l') => ffmpeg_for rest l'
      | (Propagate e, _) => raise e
      end
  end.

End Ffmpeg.

(** [range(n)] *)
Definition range (n : Z) : list Z := Z.of_nat <$> seq 0 (Z.to_nat n).

Definition ffmpeg (ffmpeg_path : string) (inp : input_path)
    (output_path : string) (input_args output_args : option (list string))
    (log_level : string) (num_retries : Z)
    (validation_callback : option callback) : M unit :=
  match expand_inputs inp with
  | None => raise ValueError
  | Some inputs =>
      let input_args := default [] input_args in
      let output_args := default [] output_args in
      ffmpeg_for ffmpeg_path inp inputs output_path log_level num_retries
        validation_callback (range num_retries)
        (Locals input_args output_args None);;
      ret tt
  end.

(** ** [download_yt_video]: audio, video and mux for one segment *)

(** [Video.getFormats(ytid)] and the selection of the streaming url. *)
Definition get_url (ytid : string) : M string :=
  λ w,
    let w0 := World (fs w) (env w) (trace w ++ [EGetFormats ytid]) in
    match getFormats_url ytid (env w) with
    | Some url => (Return url, w0)
    | None => (Raise MediaInfoError, w0)
    end.

(** The three output paths of a segment. *)
Definition filepath (output_dir sub media_filename format : string) : string :=
  PyStr.join output_dir sub (media_filename +:+ "." +:+ format).

Definition download_yt_video (ytid : string) (ts_start ts_end : float)
    (output_dir ffmpeg_path ffprobe_path : string)
    (audio_codec audio_format : string)
    (audio_sample_rate audio_bit_depth : Z)
    (video_codec video_format video_mode : string)
    (video_frame_rate num_retries : Z) : M (option string * option string) :=
  let duration := 10 in
  let media_filename := get_media_filename ytid ts_start ts_end in
  let videowithaudio_filepath :=
    filepath output_dir "video_audio" media_filename video_format in
  let video_filepath :=
    filepath output_dir "video" media_filename video_format in
  let audio_filepath :=
    filepath output_dir "audio" media_filename audio_format in
  remove_if_exists videowithaudio_filepath;;
  remove_if_exists video_filepath;;
  remove_if_exists audio_filepath;;
  if negb (String.length ytid =? 11)%nat then
    emit (EPrint ytid);;
    ret (None, None)
  else
    url <- get_url ytid;;
    let channels := 2 in
    let audio_input_args := ["-n"; "-ss"; str_of_float ts_start] in
    let audio_output_args :=
      ["-t"; str_of_int duration;
       "-ar"; str_of_int audio_sample_rate;
       "-vn";
       "-ac"; str_of_int channels;
       "-sample_fmt"; "s" +:+ str_of_int audio_bit_depth;
       "-f"; audio_format;
       "-acodec"; audio_codec] in
    ffmpeg ffmpeg_path (InStr url) audio_filepath
      (Some audio_input_args) (Some audio_output_args) "error" num_retries None;;
    if negb (bool_decide (video_codec = "h264")) then
      raise (NotImplementedError video_codec)
    else
      let video_input_args := ["-n"; "-ss"; str_of_float ts_start] in
      let video_output_args :=
        ["-t"; str_of_int duration;
         "-f"; video_format;
         "-crf"; "0";
         "-preset"; "medium";
         "-r"; str_of_int video_frame_rate;
         "-an";
         "-vcodec"; video_codec] in
      ffmpeg ffmpeg_path (InStr url) video_filepath
        (Some video_input_args) (Some video_output_args) "error" num_retries None;;
      let video_input_args := ["-n"] in
      let video_output_args :=
        ["-f"; video_format;
         "-r"; str_of_int video_frame_rate;
         "-vcodec"; video_codec;
         "-acodec"; "aac";
         "-ar"; str_of_int audio_sample_rate;
         "-ac"; str_of_int channels;
         "-strict"; "experimental"] in
      ffmpeg ffmpeg_path (InIterable [video_filepath; audio_filepath])
        videowithaudio_filepath
        (Some video_input_args) (Some video_output_args) "error" num_retries None;;
      log INFO (MsgDownloaded ytid ts_start ts_end);;
      ret (Some video_filepath, Some audio_filepath).

(** [download_yt_video(..., **ffmpeg_cfg)]: absent keys take the defaults of
    the signature. *)
Definition download_yt_video_kw (ytid : string) (ts_start ts_end : float)
    (output_dir ffmpeg_path ffprobe_path : string) (cfg : kwargs)
    : M (option string * option string) :=
  download_yt_video ytid ts_start ts_end output_dir ffmpeg_path ffprobe_path
    (default "flac" (kw_audio_codec cfg)) (default "flac" (kw_audio_format cfg))
    (default 48000 (kw_audio_sample_rate cfg))
    (default 16 (kw_audio_bit_depth cfg))
    (default "h264" (kw_video_codec cfg)) (default "mp4" (kw_video_format cfg))
    (default "bestvideo" (kw_video_mode cfg))
    (default 30 (kw_video_frame_rate cfg))
    (default 10 (kw_num_retries cfg)).

(** [try: m except Exception as e: h e] *)
Definition try_except {A} (m : M A) (h : exn → M A) : M A :=
  λ w, match m w with
       | (Return a, w') => (Return a, w')
       | (Raise e, w') => h e w'
       end.

(** [try: m finally: f] *)
Definition try_finally {A} (m : M A) (f : M unit) : M A :=
  λ w, match m w with
       | (Return a, w') => (f;; ret a) w'
       | (Raise e, w') => (f;; raise e) w'
       end.

Definition segment_mp_worker (ytid : string) (ts_start ts_end : float)
    (data_dir ffmpeg_path ffprobe_path : string) (cfg : kwargs) : M unit :=
  log INFO (MsgAttempting ytid ts_start ts_end);;
  try_except
    (download_yt_video_kw ytid ts_start ts_end data_dir ffmpeg_path
       ffprobe_path cfg;;
     ret tt)
    (λ e, log ERROR (MsgWorkerError ytid e)).

(** ** [download_subset_videos]: the scheduler *)

(** The values [subset_data] can be: the reader object [csv.reader(f)]
    returns, which is an iterator over the rows and nothing more, or a list
    of rows. *)
Inductive py_rows :=
| CsvReader (rows : list (list string))
| RowList (rows : list (list string)).

(** [v[start:]]: slicing is defined on lists; a [_csv.reader] object is not
    subscriptable and the expression raises [TypeError]. *)
Definition slice_from (start : nat) (v : py_rows)
    : exn + list (list string) :=
  match v with
  | CsvReader _ => inl TypeError
  | RowList rows => inr (drop start rows)
  end.

(** [row[i]] *)
Definition getitem (row : list string) (i : nat) : M string :=
  match row !! i with
  | Some x => ret x
  | None => raise IndexError
  end.

(** [int(s)] *)
Definition py_int (s : string) : M Z :=
  match int_of_str s with
  | Some n => ret n
  | None => raise ValueError
  end.

(** [float(n)] *)
Definition py_float (n : Z) : M float :=
  match float_of_int n with
  | Some x => ret x
  | None => raise OverflowError
  end.

Section Subset.

Variables (data_dir ffmpeg_path ffprobe_path : string) (cfg : kwargs).

(** The body of the loop over the rows. *)
Definition subset_row (row : list string) : M unit :=
  ytid <- getitem row 0;;
  hour <- (c <- getitem row 1;; py_int c);;
  minute <- (c <- getitem row 2;; py_int c);;
  second <- (c <- getitem row 3;; py_int c);;
  ts_start <- py_float (hour * 3600 + minute * 60 + second);;
  ten <- py_float 10;;
  let ts_end := fadd ts_start ten in
  let media_filename := get_media_filename ytid ts_start ts_end in
  let videowithaudio_filepath :=
    filepath data_dir "video_audio" media_filename
      (default "mp4" (kw_video_format cfg)) in
  let video_filepath :=
    filepath data_dir "video" media_filename
      (default "mp4" (kw_video_format cfg)) in
  let audio_filepath :=
    filepath data_dir "audio" media_filename
      (default "wav" (kw_audio_format cfg)) in
  v <- path_exists video_filepath;;
  a <- path_exists audio_filepath;;
  va <- path_exists videowithaudio_filepath;;
  if v && a && va then
    log INFO (MsgAlreadyDownloaded ytid ts_start ts_end)
  else
    emit (EApplyAsync
            (Job ytid ts_start ts_end data_dir ffmpeg_path ffprobe_path cfg)).

(** [for row_idx, row in enumerate(rows): ...] *)
Fixpoint subset_for (rows : list (list string)) : M unit :=
  match rows with
  | [] => ret tt
  | row :: rest => subset_row row;; subset_for rest
  end.

End Subset.

(** [mp.Pool(num_workers)] raises [ValueError] for fewer than one worker.
    The [except csv.Error] and [except KeyboardInterrupt] clauses have no
    counterpart here: neither exception arises in the model. *)
Definition download_subset_videos (subset_path data_dir ffmpeg_path
    ffprobe_path : string) (num_workers : Z) (cfg : kwargs) : M unit :=
  let subset_name := get_subset_name subset_path in
  log INFO (MsgStarting subset_name);;
  let subset_data := CsvReader (csv_rows subset_path) in
  (if bool_decide (num_workers < 1) then raise ValueError
   else emit (EPool num_workers));;
  try_finally
    (match slice_from 1 subset_data with
     | inl e => raise e
     | inr rows => subset_for data_dir ffmpeg_path ffprobe_path cfg rows
     end)
    (emit EPoolClose;; emit EPoolJoin);;
  log INFO (MsgFinished subset_name).

End Downloader.

(** ** Event projections used to state what a call did *)

Section Projections.

Context `{PyNum}.

(** The argument vectors of the tool runs of a trace, in order. *)
Definition runs (t : list event) : list (list string) :=
  omap (λ e, match e with ERun args => Some args | _ => None end) t.

(** The paths deleted by a trace, in order. *)
Definition removals (t : list event) : list string :=
  omap (λ e, match e with ERemove p => Some p | _ => None end) t.

(** The jobs submitted to the pool by a trace, in order. *)
Definition submissions (t : list event) : list job :=
  omap (λ e, match e with EApplyAsync j => Some j | _ => None end) t.

End Projections.

(** ** A concrete number instance: decimal fixed point

    Values are integers counting thousandths.  [str] prints the way Python
    prints a float with at most three decimals (["10.0"], ["10.5"], ["10.7"]),
    [float] reads an optionally signed decimal numeral with at most three
    decimals, [int] an optionally signed run of digits.  Binary rounding is
    not part of this instance; the theorems are stated for every [PyNum]. *)

Module Decimal.

Fixpoint digits_value (l : list ascii) (acc : Z) : option Z :=
  match l with
  | [] => Some acc
  | c :: l' =>
      match Ascii.is_nat c with
      | Some d => digits_value l' (10 * acc + Z.of_nat d)
      | None => None
      end
  end.

Definition unsigned_value (l : list ascii) : option Z :=
  match l with
  | [] => None
  | _ => digits_value l 0
  end.

Definition split_sign (l : list ascii) : bool * list ascii :=
  match l with
  | "-"%char :: l' => (true, l')
  | _ => (false, l)
  end.

Definition apply_sign (neg : bool) (n : Z) : Z := if neg then - n else n.

Definition parse_int (s : string) : option Z :=
  let '(neg, l) := split_sign (list_ascii_of_string s) in
  apply_sign neg <$> unsigned_value l.

Fixpoint split_dot (l : list ascii) : list ascii * option (list ascii) :=
  match l with
  | [] => ([], None)
  | "."%char :: l' => ([], Some l')
  | c :: l' => let '(a, b) := split_dot l' in (c :: a, b)
  end.

Definition parse_float (s : string) : option Z :=
  let '(neg, l) := split_sign (list_ascii_of_string s) in
  let '(ip, fp) := split_dot l in
  match unsigned_value ip, fp with
  | Some i, None => Some (apply_sign neg (i * 1000))
  | Some i, Some f =>
      if (length f <=? 3)%nat then
        match digits_value (f ++ replicate (3 - length f) "0"%char) 0 with
        | Some m => Some (apply_sign neg (i * 1000 + m))
        | None => None
        end
      else None
  | None, _ => None
  end.

Fixpoint strip_zeros (l : list ascii) : list ascii :=
  match l with
  | "0"%char :: l' => strip_zeros l'
  | _ => l
  end.

Definition digit (n : Z) : ascii := ascii_of_nat (48 + Z.to_nat n).

Fixpoint digits_of (fuel : nat) (n : Z) (acc : list ascii) : list ascii :=
  match fuel with
  | O => acc
  | S fuel' =>
      let acc' := digit (n mod 10) :: acc in
      if n / 10 =? 0 then acc' else digits_of fuel' (n / 10) acc'
  end.

(** Decimal numeral of a natural number. *)
Definition print_nat (n : Z) : list ascii :=
  digits_of (S (Z.to_nat (Z.log2 n))) n [].

Definition print_float (x : Z) : string :=
  let a := Z.abs x in
  let m := a mod 1000 in
  let frac := [digit (m / 100); digit (m / 10 mod 10); digit (m mod 10)] in
  let frac := rev (strip_zeros (rev frac)) in
  let frac := match frac with [] => ["0"%char] | _ => frac end in
  string_of_list_ascii
    ((if x <? 0 then ["-"%char] else []) ++
     print_nat (a / 1000) ++ ["."%char] ++ frac).

Definition num : PyNum := {|
  float := Z;
  fadd := Z.add;
  fsub := Z.sub;
  float_of_int := λ n, Some (n * 1000);
  float_of_str := parse_float;
  int_of_str := parse_int;
  str_of_float := print_float;
|}.

End Decimal.

(** ** A scripted external tool

    The environment holds two scripts: the outcomes of the coming tool runs,
    each with a flag telling whether the run wrote the output file, and the
    verdicts of the coming validations.  When a script is used up the tool
    succeeds and writes its output, and the validation passes. *)

Module Scripted.

Section WithNum.

Context `{PyNum}.

Definition env : Type := list (run_result * bool) * list (option ffmpeg_error).

(** The output path of an argument vector: the token before ['-loglevel']. *)
Definition output_of (args : list string) : gset string :=
  match args !! (length args - 3)%nat with
  | Some p => {[p]}
  | None => ∅
  end.

Definition run_command (args : list string) (f : gset string) (e : env)
    : run_result * gset string * env :=
  match e.1 with
  | [] => (RunOk, f ∪ output_of args, e)
  | (r, writes) :: rest =>
      (r, if writes : bool then f ∪ output_of args else f, (rest, e.2))
  end.

Definition validate : callback (Env := env) :=
  λ _ f e,
    match e.2 with
    | [] => (None, e)
    | v :: rest => (v, (e.1, rest))
    end.

(** Modelled from the spec: [HTTP_ERR_PATTERN] is defined in [utils.py], which
    is not among the sources; the spec calls it an HTTP 4xx/5xx error
    pattern.  This sample matcher accepts a text that starts with
    ["Server returned 4"] or ["Server returned 5"]. *)
Definition http_err_match (s : string) : bool :=
  PyStr.startswith s "Server returned 4" || PyStr.startswith s "Server returned 5".

(** A sample [get_media_filename]: the identifier, and the two offsets. *)
Definition media_filename (ytid : string) (ts_start ts_end : float) : string :=
  ytid +:+ "_" +:+ str_of_float ts_start +:+ "_" +:+ str_of_float ts_end.

Definition resolve (ytid : string) (e : env) : option string :=
  if bool_decide (ytid = "unavailable") then None
  else Some ("https://media.example/" +:+ ytid).

End WithNum.

End Scripted.

(** ** Vocabulary of the statements *)

Section Vocabulary.

Context `{PyNum}.

(** The two argument lists that can carry the duration token. *)
Inductive which_args := InputArgs | OutputArgs.

Definition args_of (s : which_args) (l : locals) : list string :=
  match s with
  | InputArgs => input_args l
  | OutputArgs => output_args l
  end.

(** The ['-t'] token the duration handler works on, with its value [v]: the
    first ['-t'] of [input_args], or, when [input_args] has none, the first
    ['-t'] of [output_args]. *)
Definition duration_at (s : which_args) (l : locals)
    (pre : list string) (v : string) (post : list string) : Prop :=
  ("-t" ∉ pre) ∧ args_of s l = pre ++ "-t" :: v :: post ∧
  (s = OutputArgs → "-t" ∉ input_args l).

(** The next runs of the tool on [args], one per stderr of the list and each
    from the filesystem and environment the run before left, all fail, each
    with its stderr, and the loop classifies each stderr as an HTTP error:
    after [rstrip] it matches [HTTP_ERR_PATTERN] and does not end with the
    already-exists marker, which the loop tests first. *)
Fixpoint http_failures {Env : Type}
    (run_command :
       list string → gset string → Env → run_result * gset string * Env)
    (HTTP_ERR_PATTERN_match : string → bool) (args : list string)
    (stderrs : list string) (f : gset string) (e : Env) : Prop :=
  match stderrs with
  | [] => True
  | stderr :: rest =>
      ∃ f' e',
        run_command args f e = (RunFailed stderr, f', e') ∧
        PyStr.endswith (PyStr.rstrip stderr) "already exists. Exiting."
          = false ∧
        HTTP_ERR_PATTERN_match (PyStr.rstrip stderr) = true ∧
        http_failures run_command HTTP_ERR_PATTERN_match args rest f' e'
  end.

(** The argument vector of a run when the duration token the handler works
    on carries the value [v]: the list [s] is [pre ++ '-t' :: v :: post], the
    other list is that of [l]. *)
Definition argv_with_duration (ffmpeg_path : string) (inputs : list string)
    (output_path log_level : string) (s : which_args) (l : locals)
    (pre : list string) (v : string) (post : list string) : list string :=
  match s with
  | InputArgs =>
      [ffmpeg_path] ++ (pre ++ "-t" :: v :: post) ++ inputs ++
      output_args l ++ [output_path; "-loglevel"; log_level]
  | OutputArgs =>
      [ffmpeg_path] ++ input_args l ++ inputs ++
      (pre ++ "-t" :: v :: post) ++ [output_path; "-loglevel"; log_level]
  end.

(** The three argument vectors [download_yt_video] hands to the tool, as
    the spec describes them: audio extraction, video extraction and mux. *)
Definition audio_args (ffmpeg_path url audio_filepath : string)
    (ts_start : float) (audio_codec audio_format : string)
    (audio_sample_rate audio_bit_depth : Z) : list string :=
  [ffmpeg_path; "-n"; "-ss"; str_of_float ts_start; "-i"; url;
   "-t"; "10"; "-ar"; str_of_int audio_sample_rate; "-vn"; "-ac"; "2";
   "-sample_fmt"; "s" +:+ str_of_int audio_bit_depth;
   "-f"; audio_format; "-acodec"; audio_codec;
   audio_filepath; "-loglevel"; "error"].

Definition video_args (ffmpeg_path url video_filepath : string)
    (ts_start : float) (video_codec video_format : string)
    (video_frame_rate : Z) : list string :=
  [ffmpeg_path; "-n"; "-ss"; str_of_float ts_start; "-i"; url;
   "-t"; "10"; "-f"; video_format; "-crf"; "0"; "-preset"; "medium";
   "-r"; str_of_int video_frame_rate; "-an"; "-vcodec"; video_codec;
   video_filepath; "-loglevel"; "error"].

Definition mux_args (ffmpeg_path video_filepath audio_filepath
    videowithaudio_filepath video_codec video_format : string)
    (video_frame_rate audio_sample_rate : Z) : list string :=
  [ffmpeg_path; "-n"; "-i"; video_filepath; "-i"; audio_filepath;
   "-f"; video_format; "-r"; str_of_int video_frame_rate;
   "-vcodec"; video_codec; "-acodec"; "aac";
   "-ar"; str_of_int audio_sample_rate; "-ac"; "2";
   "-strict"; "experimental";
   videowithaudio_filepath; "-loglevel"; "error"].

End Vocabulary.

(** The paths deleted by three successive [if exists: remove]. *)
Definition removed_paths (f : gset string) (va v a : string) : list string :=
  (if bool_decide (va ∈ f) then [va] else []) ++
  (if bool_decide (v ∈ f ∖ {[va]}) then [v] else []) ++
  (if bool_decide (a ∈ f ∖ {[va]} ∖ {[v]}) then [a] else []).

(** ** Sample inputs

    Concrete calls on the decimal numbers and the scripted tool, used to run
    the model and to instantiate the theorems. *)

Module Sample.

#[local] Existing Instance Decimal.num.

Definition script : Type := Scripted.env.

Definition start (f : gset string) (e : script) : world := World f e [].

Definition http_503 : string := "Server returned 503 Service Unavailable".

(** A tool that fails with an HTTP 503 on every run and writes nothing. *)
Definition failing_tool (args : list string) (f : gset string) (e : script)
    : run_result * gset string * script :=
  (RunFailed http_503, f, e).

(** Three runs that fail with three different HTTP errors; the last one
    leaves a partial output behind. *)
Definition three_http_errors : list string :=
  ["Server returned 503 Service Unavailable";
   "Server returned 502 Bad Gateway";
   "Server returned 504 Gateway Timeout"].

Definition three_failures : script :=
  ([(RunFailed "Server returned 503 Service Unavailable", false);
    (RunFailed "Server returned 502 Bad Gateway", false);
    (RunFailed "Server returned 504 Gateway Timeout", true)], []).

(** [ffmpeg] on one input with the duration in [output_args]. *)
Definition retry_locals : locals := Locals ["-n"] ["-t"; "10"] None.

Definition retry_args (duration : string) : list string :=
  ["ffmpeg"; "-n"; "-i"; "in.mp4"; "-t"; duration; "out.wav";
   "-loglevel"; "error"].

(** A duration mismatch, in thousandths of a second. *)
Definition mismatch (target actual : Z) : ffmpeg_error :=
  FfmpegIncorrectDurationError target actual.

(** Two validations that report 9.5 s and then 9.8 s for a target of 10 s. *)
Definition two_mismatches : script :=
  ([], [Some (mismatch 10000 9500); Some (mismatch 10000 9800)]).

(** The worlds of that run: after the first tool run, after the handler of
    the first mismatch, and after the second tool run. *)
Definition after_first_run : world (Env := script) :=
  World {["out.wav"]} ([], [Some (mismatch 10000 9800)])
    [ERun (retry_args "10")].

Definition after_first_attempt : world (Env := script) :=
  World ∅ ([], [Some (mismatch 10000 9800)])
    [ERun (retry_args "10"); ERemove "out.wav";
     ELog WARNING (MsgDurationRetrying (mismatch 10000 9500))].

Definition after_second_run : world (Env := script) :=
  World {["out.wav"]} ([], [])
    [ERun (retry_args "10"); ERemove "out.wav";
     ELog WARNING (MsgDurationRetrying (mismatch 10000 9500));
     ERun (retry_args "10.5")].

Definition sample_ffmpeg (num_retries : Z) (cb : option callback)
    : M unit :=
  ffmpeg Scripted.run_command Scripted.http_err_match "ffmpeg"
    (InStr "in.mp4") "out.wav" (Some ["-n"]) (Some ["-t"; "10"]) "error"
    num_retries cb.

Definition sample_attempt (num_retries : Z) (cb : option callback)
    : Z → locals → M (ctl * locals) :=
  ffmpeg_attempt Scripted.run_command Scripted.http_err_match "ffmpeg"
    ["-i"; "in.mp4"] "out.wav" "error" num_retries cb.

Definition sample_loop (num_retries : Z) (cb : option callback)
    : list Z → locals → M locals :=
  ffmpeg_for Scripted.run_command Scripted.http_err_match "ffmpeg"
    (InStr "in.mp4") ["-i"; "in.mp4"] "out.wav" "error" num_retries cb.

(** [download_yt_video] for the segment from 65 s to 75 s. *)
Definition sample_download (ytid video_codec : string) (num_retries : Z)
    : M (option string * option string) :=
  download_yt_video Scripted.run_command Scripted.http_err_match
    Scripted.media_filename Scripted.resolve ytid 65000 75000 "/data"
    "ffmpeg" "ffprobe" "pcm_s16le" "wav" 48000 16 video_codec "mp4"
    "bestvideo" 30 num_retries.

Definition sample_audio_args (ytid : string) : list string :=
  ["ffmpeg"; "-n"; "-ss"; "65.0"; "-i"; "https://media.example/" +:+ ytid;
   "-t"; "10"; "-ar"; "48000"; "-vn"; "-ac"; "2"; "-sample_fmt"; "s16";
   "-f"; "wav"; "-acodec"; "pcm_s16le";
   "/data/audio/" +:+ ytid +:+ "_65.0_75.0.wav"; "-loglevel"; "error"].

Definition no_kwargs : kwargs :=
  Kwargs None None None None None None None None None.

(** A metadata file: the header and one row, 0 h 1 min 5 s. *)
Definition meta_rows : list (list string) :=
  [["YTID"; "hour"; "minute"; "second"]; ["abcdefghijk"; "0"; "1"; "5"]].

Definition downloaded_files : gset string :=
  {[ "/data/video/abcdefghijk_65.0_75.0.mp4";
     "/data/audio/abcdefghijk_65.0_75.0.wav";
     "/data/video_audio/abcdefghijk_65.0_75.0.mp4" ]}.

Definition sample_subset_for : list (list string) → M unit :=
  subset_for (Env := script) Scripted.media_filename "/data" "ffmpeg"
    "ffprobe" no_kwargs.

Definition sample_download_subset : M unit :=
  download_subset_videos (Env := script) Scripted.media_filename (λ p, p)
    (λ _, meta_rows) "meta.csv" "/data" "ffmpeg" "ffprobe" 4 no_kwargs.

End Sample.

(** ** Vocabulary of the further statements *)

Section MoreVocabulary.

Context `{PyNum}.

(** The frame of an argument vector of a call: the tool path, input
    arguments, the inputs, output arguments, the output path and the log
    level, the two argument lists having as many tokens as in [l]. *)
Definition same_shape (ffmpeg_path : string) (inputs : list string)
    (output_path log_level : string) (l : locals) (args : list string)
    : Prop :=
  ∃ ia oa,
    args = [ffmpeg_path] ++ ia ++ inputs ++ oa ++
           [output_path; "-loglevel"; log_level] ∧
    length ia = length (input_args l) ∧ length oa = length (output_args l).

(** The tool succeeds on every run. *)
Definition always_succeeds {Env : Type}
    (run_command :
       list string → gset string → Env → run_result * gset string * Env)
    : Prop :=
  ∀ args f e, ∃ f' e', run_command args f e = (RunOk, f', e').

End MoreVocabulary.

(** Further sample inputs. *)

Module MoreSample.

#[local] Existing Instance Decimal.num.

(** A tool that succeeds on every run and writes its output. *)
Definition ok_tool (args : list string) (f : gset string)
    (e : Sample.script) : run_result * gset string * Sample.script :=
  (RunOk, f ∪ Scripted.output_of args, e).

Definition sample_try (cb : option callback) : locals → M (option ffmpeg_error) :=
  try_body Scripted.run_command "ffmpeg" ["-i"; "in.mp4"] "out.wav" "error"
    cb.

(** Argument lists without any duration token. *)
Definition no_duration : locals := Locals ["-n"] ["-vn"] None.

(** Argument lists whose [input_args] end with a dangling ['-t']. *)
Definition dangling_duration : locals := Locals ["-n"; "-t"] ["-t"; "10"] None.

(** One validation that reports 9.5 s for a target of 10 s. *)
Definition one_mismatch : Sample.script :=
  ([], [Some (Sample.mismatch 10000 9500)]).

(** One validation that rejects the output. *)
Definition one_rejection : Sample.script :=
  ([], [Some (FfmpegValidationError "no audio stream")]).

(** One run that fails for a reason of the tool's own, after writing part of
    the output. *)
Definition one_conversion_failure : Sample.script :=
  ([(RunFailed "Conversion failed!", true)], []).

End MoreSample.

(** * Properties *)

(** ** Strings and argument lists *)

Lemma starts_chars_lstrip (p l : list ascii) :
  match p with c :: _ => PyStr.is_space c = false | [] => True end →
  PyStr.starts_chars p l = true →
  PyStr.starts_chars p (PyStr.lstrip_chars l) = true.
Proof.
  destruct p as [|c p]; [reflexivity|].
  destruct l as [|a l]; [discriminate|].
  intros Hc Hs. pose proof Hs as Hs'. cbn in Hs'.
  apply andb_prop in Hs' as [Hca _].
  apply bool_decide_eq_true in Hca. subst a.
  cbn [PyStr.lstrip_chars]. rewrite Hc. exact Hs.
Qed.

Lemma endswith_rstrip_marker (s : string) :
  PyStr.endswith s "already exists. Exiting." = true →
  PyStr.endswith (PyStr.rstrip s) "already exists. Exiting." = true.
Proof.
  unfold PyStr.endswith, PyStr.rstrip.
  rewrite list_ascii_of_string_of_list_ascii, rev_involutive.
  apply starts_chars_lstrip. reflexivity.
Qed.

Lemma index_absent (x : string) (l : list string) :
  x ∉ l → PyStr.index x l = None.
Proof.
  intros Hx. unfold PyStr.index.
  destruct (list_find (λ y, y = x) l) as [[i y]|] eqn:E; [|reflexivity].
  apply list_find_Some in E as (Hl & -> & _).
  exfalso. apply Hx. eapply list_elem_of_lookup_2. exact Hl.
Qed.

Lemma index_first (x : string) (pre post : list string) :
  x ∉ pre → PyStr.index x (pre ++ x :: post) = Some (length pre).
Proof.
  intros Hx. unfold PyStr.index.
  induction pre as [|a pre IH]; cbn.
  - rewrite decide_True by reflexivity. reflexivity.
  - apply not_elem_of_cons in Hx as [Hne Hx].
    rewrite decide_False by congruence.
    specialize (IH Hx).
    destruct (list_find (λ y, y = x) (pre ++ x :: post)) as [[i y]|];
      cbn in *; congruence.
Qed.

Section BumpDuration.

Context `{PyNum}.

Lemma bump_duration_absent (l : list string) (d : float) :
  "-t" ∉ l → bump_duration l d = inl ValueError.
Proof. intros Hl. unfold bump_duration. by rewrite index_absent. Qed.

Lemma bump_duration_first (pre post : list string) (v : string) (x d : float) :
  "-t" ∉ pre →
  float_of_str v = Some x →
  bump_duration (pre ++ "-t" :: v :: post) d =
  inr (pre ++ "-t" :: str_of_float (fadd x d) :: post).
Proof.
  intros Hpre Hv. unfold bump_duration.
  rewrite index_first by exact Hpre.
  replace (length pre + 1)%nat with (length pre + 1 + 0)%nat by lia.
  rewrite (lookup_app_r pre) by lia.
  replace (length pre + 1 + 0 - length pre)%nat with 1%nat by lia.
  cbn [lookup list_lookup]. rewrite Hv. f_equal.
  rewrite insert_app_r_alt by lia.
  replace (length pre + 1 + 0 - length pre)%nat with 1%nat by lia.
  reflexivity.
Qed.

Lemma adjust_duration_at (s : which_args) (l : locals)
    (pre post : list string) (v : string) (x d : float) :
  duration_at s l pre v post →
  float_of_str v = Some x →
  ∃ ia oa,
    adjust_duration (input_args l) (output_args l) d = inr (ia, oa) ∧
    ∀ e, duration_at s (Locals ia oa e) pre (str_of_float (fadd x d)) post ∧
         match s with
         | InputArgs => oa = output_args l
         | OutputArgs => ia = input_args l
         end.
Proof.
  intros (Hpre & Hl & Hin) Hv. unfold adjust_duration.
  destruct s; cbn in Hl.
  - rewrite Hl, (bump_duration_first _ _ _ x) by assumption.
    eexists _, _. split; [reflexivity|]. intros e.
    repeat split; [assumption|discriminate].
  - rewrite bump_duration_absent by auto.
    rewrite Hl, (bump_duration_first _ _ _ x) by assumption.
    eexists _, _. split; [reflexivity|]. intros e.
    repeat split; auto.
Qed.

End BumpDuration.

Section TraceFacts.

Context `{PyNum}.

Lemma runs_app (t1 t2 : list event) : runs (t1 ++ t2) = runs t1 ++ runs t2.
Proof. apply omap_app. Qed.

Lemma runs_replicate (n : nat) (args : list string) :
  runs (replicate n (ERun args)) = replicate n args.
Proof. induction n as [|n IH]; [reflexivity|]. cbn. by rewrite <- IH. Qed.

Lemma removals_app (t1 t2 : list event) :
  removals (t1 ++ t2) = removals t1 ++ removals t2.
Proof. apply omap_app. Qed.

Lemma submissions_app (t1 t2 : list event) :
  submissions (t1 ++ t2) = submissions t1 ++ submissions t2.
Proof. apply omap_app. Qed.

Lemma runs_removes (l : list string) : runs (ERemove <$> l) = [].
Proof. induction l as [|p l IH]; [reflexivity|exact IH]. Qed.

Lemma length_range (n : Z) : length (range n) = Z.to_nat n.
Proof. unfold range. by rewrite length_fmap, length_seq. Qed.

End TraceFacts.

(** ** The retry loop of [ffmpeg] *)

Section RetryLoop.

Context `{PyNum} {Env : Type}.

Variable run_command :
  list string → gset string → Env → run_result * gset string * Env.
Variable HTTP_ERR_PATTERN_match : string → bool.
Variables (ffmpeg_path : string) (inp : input_path) (inputs : list string)
  (output_path log_level : string) (num_retries : Z)
  (validation_callback : option (callback (Env := Env))).

Abbreviation args_of_locals :=
  (ffmpeg_args ffmpeg_path inputs output_path log_level).
Abbreviation body :=
  (try_body run_command ffmpeg_path inputs output_path log_level
     validation_callback).
Abbreviation attempt_at :=
  (ffmpeg_attempt run_command HTTP_ERR_PATTERN_match ffmpeg_path inputs
     output_path log_level num_retries validation_callback).
Abbreviation loop :=
  (ffmpeg_for run_command HTTP_ERR_PATTERN_match ffmpeg_path inp inputs
     output_path log_level num_retries validation_callback).

Lemma try_body_failed (l : locals) (w : world) (stderr : string)
    (f1 : gset string) (e1 : Env) :
  run_command (args_of_locals l) (fs w) (env w) = (RunFailed stderr, f1, e1) →
  body l w = (Return (Some (SubprocessError stderr)),
              World f1 e1 (trace w ++ [ERun (args_of_locals l)])).
Proof. intros Hrun. unfold try_body. cbn [fs env trace]. by rewrite Hrun. Qed.

(** Every attempt starts by running the tool on the argument vector built
    from the current argument lists. *)
Lemma ffmpeg_attempt_runs_first (attempt : Z) (l : locals) (w : world) :
  ∃ t, trace (attempt_at attempt l w).2 =
       trace w ++ ERun (args_of_locals l) :: t.
Proof.
  unfold ffmpeg_attempt, try_body, remove_unless_last, remove_if_exists,
    path_exists, remove, log, emit, bind, ret.
  repeat case_match; simplify_eq; cbn [trace snd];
    rewrite <- ?app_assoc; by eexists.
Qed.

(** C6: an attempt whose captured stderr ends with the marker
    "already exists. Exiting." (as captured, or once trailing whitespace is
    stripped, which is what the loop tests) ends the call at once.  Whatever
    attempts remain are not made, nothing is deleted (the filesystem is
    exactly what the tool left, so an existing output file stays), one INFO
    line is logged and the loop returns normally, without reaching the
    exhausted-retries branch. *)
Theorem ffmpeg_already_exists_stops (attempt : Z) (rest : list Z)
    (l : locals) (w : world) (stderr : string) (f1 : gset string) (e1 : Env) :
  run_command (args_of_locals l) (fs w) (env w) = (RunFailed stderr, f1, e1) →
  PyStr.endswith stderr "already exists. Exiting." = true ∨
  PyStr.endswith (PyStr.rstrip stderr) "already exists. Exiting." = true →
  loop (attempt :: rest) l w =
  (Return (Locals (input_args l) (output_args l)
             (Some (SubprocessError stderr))),
   World f1 e1 (trace w ++ [ERun (args_of_locals l);
                            ELog INFO (MsgAlreadyExists output_path)])).
Proof.
  intros Hrun Hend.
  assert (Hstripped : PyStr.endswith (PyStr.rstrip stderr)
                        "already exists. Exiting." = true).
  { destruct Hend as [Hraw|Hs]; [by apply endswith_rstrip_marker|exact Hs]. }
  cbn [ffmpeg_for]. unfold bind at 1.
  unfold ffmpeg_attempt, bind at 1.
  rewrite (try_body_failed _ _ _ _ _ Hrun), Hstripped.
  cbn. by rewrite <- app_assoc.
Qed.

Lemma ffmpeg_attempt_http (attempt : Z) (l : locals) (w : world)
    (stderr : string) (f1 : gset string) (e1 : Env) :
  run_command (args_of_locals l) (fs w) (env w) = (RunFailed stderr, f1, e1) →
  PyStr.endswith (PyStr.rstrip stderr) "already exists. Exiting." = false →
  HTTP_ERR_PATTERN_match (PyStr.rstrip stderr) = true →
  attempt_at attempt l w =
  (Return (Continue, Locals (input_args l) (output_args l)
                       (Some (SubprocessError stderr))),
   World f1 e1 (trace w ++ [ERun (args_of_locals l)])).
Proof.
  intros Hrun Hend Hhttp. unfold ffmpeg_attempt, bind at 1.
  rewrite (try_body_failed _ _ _ _ _ Hrun), Hend, Hhttp. reflexivity.
Qed.

(** C5, as the code has it: an attempt that fails with a stderr matching the
    HTTP error pattern (and not ending with the already-exists marker) is
    retried and nothing else happens: the error is remembered, no line is
    logged and no file is deleted, so the next attempt starts on the
    filesystem exactly as the failed run left it. *)
Theorem ffmpeg_http_error_retries_in_place (attempt : Z) (rest : list Z)
    (l : locals) (w : world) (stderr : string) (f1 : gset string) (e1 : Env) :
  run_command (args_of_locals l) (fs w) (env w) = (RunFailed stderr, f1, e1) →
  PyStr.endswith (PyStr.rstrip stderr) "already exists. Exiting." = false →
  HTTP_ERR_PATTERN_match (PyStr.rstrip stderr) = true →
  let l' := Locals (input_args l) (output_args l)
              (Some (SubprocessError stderr)) in
  let w' := World f1 e1 (trace w ++ [ERun (args_of_locals l)]) in
  attempt_at attempt l w = (Return (Continue, l'), w') ∧
  loop (attempt :: rest) l w = loop rest l' w'.
Proof.
  intros Hrun Hend Hhttp l' w'.
  pose proof (ffmpeg_attempt_http attempt _ _ _ _ _ Hrun Hend Hhttp) as Hatt.
  split; [exact Hatt|].
  cbn [ffmpeg_for]. unfold bind at 1. by rewrite Hatt.
Qed.

Lemma ffmpeg_for_http_exhausts (attempts : list Z) (stderrs : list string)
    (l : locals) (w : world) :
  length stderrs = length attempts →
  http_failures run_command HTTP_ERR_PATTERN_match (args_of_locals l)
    stderrs (fs w) (env w) →
  ∃ f' e',
    let last_error :=
      match last stderrs with
      | Some stderr => Some (SubprocessError stderr)
      | None => last_err l
      end in
    loop attempts l w =
    (Return (Locals (input_args l) (output_args l) last_error),
     World f' e'
       (trace w ++ replicate (length attempts) (ERun (args_of_locals l)) ++
        [ELog ERROR (MsgMaxRetries num_retries inp last_error)])).
Proof.
  revert stderrs l w.
  induction attempts as [|a rest IH]; intros stderrs l w Hlen Hfail.
  - destruct stderrs; [|discriminate]. exists (fs w), (env w).
    cbn. by destruct l.
  - destruct stderrs as [|stderr stderrs]; [discriminate|].
    destruct Hfail as (f1 & e1 & Hrun & Hend & Hhttp & Hrest).
    cbn [ffmpeg_for]. unfold bind at 1.
    rewrite (ffmpeg_attempt_http a _ _ _ _ _ Hrun Hend Hhttp).
    destruct (IH stderrs
                (Locals (input_args l) (output_args l)
                   (Some (SubprocessError stderr)))
                (World f1 e1 (trace w ++ [ERun (args_of_locals l)])))
      as (f' & e' & Hloop).
    { cbn in Hlen. lia. }
    { exact Hrest. }
    exists f', e'. cbn zeta in Hloop |- *. rewrite Hloop.
    cbn [input_args output_args last_err trace length replicate].
    rewrite <- app_assoc.
    destruct stderrs as [|stderr' stderrs']; [reflexivity|].
    change (last (stderr :: stderr' :: stderrs'))
      with (last (stderr' :: stderrs')).
    destruct (last (stderr' :: stderrs')) as [x|] eqn:Elast; [reflexivity|].
    by apply last_None in Elast.
Qed.

(** C2: when each attempt of the call fails with a stderr classified as an
    HTTP error, [ffmpeg] runs the tool exactly [num_retries] times (no time
    when [num_retries] is not positive), each time on the same argument
    vector, deletes nothing, then logs at ERROR level that the maximum number
    of retries was reached, with the error of the last attempt ([None] when
    there was no attempt), and returns normally: the value returned is the
    unit value a successful call returns, and no exception is raised. *)
Theorem ffmpeg_http_errors_exhaust_retries
    (ia oa : option (list string)) (w : world) (stderrs : list string) :
  expand_inputs inp = Some inputs →
  let args := args_of_locals (Locals (default [] ia) (default [] oa) None) in
  length stderrs = Z.to_nat num_retries →
  http_failures run_command HTTP_ERR_PATTERN_match args stderrs
    (fs w) (env w) →
  ∃ w',
    ffmpeg run_command HTTP_ERR_PATTERN_match ffmpeg_path inp output_path
      ia oa log_level num_retries validation_callback w = (Return (), w') ∧
    trace w' = trace w ++ replicate (Z.to_nat num_retries) (ERun args) ++
               [ELog ERROR
                  (MsgMaxRetries num_retries inp
                     (SubprocessError <$> last stderrs))] ∧
    Z.of_nat (length (runs (trace w'))) =
      Z.of_nat (length (runs (trace w))) + Z.max 0 num_retries ∧
    removals (trace w') = removals (trace w).
Proof.
  intros Hinp args Hlen Hfail.
  destruct (ffmpeg_for_http_exhausts (range num_retries) stderrs
              (Locals (default [] ia) (default [] oa) None) w)
    as (f' & e' & Hloop).
  { by rewrite length_range. }
  { exact Hfail. }
  cbn zeta in Hloop. rewrite length_range in Hloop.
  assert (Hlast :
    match last stderrs with
    | Some stderr => Some (SubprocessError stderr)
    | None => last_err (Locals (default [] ia) (default [] oa) None)
    end = SubprocessError <$> last stderrs).
  { by destruct (last stderrs). }
  rewrite Hlast in Hloop.
  eexists. split; [|split; [|split]].
  - unfold ffmpeg. rewrite Hinp. unfold bind at 1. rewrite Hloop. reflexivity.
  - reflexivity.
  - cbn [trace]. rewrite !runs_app, runs_replicate, !length_app,
      length_replicate. cbn. lia.
  - cbn [trace]. rewrite !removals_app.
    assert (Hrep : ∀ n, removals (replicate n (ERun args)) = []).
    { induction n as [|n IHn]; [reflexivity|exact IHn]. }
    rewrite Hrep. cbn. by rewrite app_nil_r.
Qed.

(** C10: with [num_retries] equal to 0 the loop body is not executed: the
    tool is not run, nothing is deleted, the only effect is the ERROR line
    saying that the maximum number of retries (0) was reached, with [None] as
    the last error, and the call returns normally. *)
Theorem ffmpeg_zero_retries (ia oa : option (list string)) (w : world) :
  inp ≠ InOther →
  ffmpeg run_command HTTP_ERR_PATTERN_match ffmpeg_path inp output_path
    ia oa log_level 0 validation_callback w =
  (Return (),
   World (fs w) (env w)
     (trace w ++ [ELog ERROR (MsgMaxRetries 0 inp None)])).
Proof.
  intros Hinp. unfold ffmpeg.
  destruct inp; [reflexivity|reflexivity|congruence].
Qed.

Lemma try_body_trace (l : locals) (w w1 : world)
    (r : result (option ffmpeg_error)) :
  body l w = (r, w1) → trace w1 = trace w ++ [ERun (args_of_locals l)].
Proof.
  unfold try_body. intros Hb.
  repeat case_match; simplify_eq; reflexivity.
Qed.

Lemma remove_unless_last_spec (attempt : Z) (w : world (Env := Env)) :
  ∃ (f : gset string) (t : list event),
    remove_unless_last output_path num_retries attempt w =
    (Return (), World f (env w) (trace w ++ t)) ∧ runs t = [].
Proof.
  destruct w as [f0 e0 t0].
  unfold remove_unless_last, remove_if_exists, path_exists, remove, bind, ret.
  repeat case_match; simplify_eq.
  - eexists _, [_]. split; reflexivity.
  - exists f0, []. rewrite app_nil_r. split; reflexivity.
  - exists f0, []. rewrite app_nil_r. split; reflexivity.
Qed.

Lemma remove_unless_last_trace (attempt : Z) (w : world (Env := Env)) :
  ∃ f : gset string,
    remove_unless_last output_path num_retries attempt w =
    (Return (),
     World f (env w)
       (trace w ++
        if bool_decide (attempt < num_retries - 1) &&
           bool_decide (output_path ∈ fs w)
        then [ERemove output_path] else [])).
Proof.
  destruct w as [f0 e0 t0].
  unfold remove_unless_last, remove_if_exists, path_exists, remove, bind, ret.
  cbv beta. cbn [fs env trace].
  repeat case_bool_decide; try contradiction; cbn [andb fs env trace].
  - eexists. reflexivity.
  - exists f0. by rewrite app_nil_r.
  - exists f0. by rewrite app_nil_r.
  - exists f0. by rewrite app_nil_r.
Qed.

(** One attempt that ends in a duration mismatch, with the ['-t'] token in
    place and a value that reads as a float. *)
Lemma ffmpeg_attempt_mismatch (attempt : Z) (l : locals) (w w1 : world)
    (s : which_args) (pre post : list string) (v : string)
    (x target actual : float) :
  body l w = (Return (Some (FfmpegIncorrectDurationError target actual)), w1) →
  duration_at s l pre v post →
  float_of_str v = Some x →
  ∃ l' w',
    attempt_at attempt l w = (Return (Continue, l'), w') ∧
    duration_at s l' pre (str_of_float (fadd x (fsub target actual))) post ∧
    match s with
    | InputArgs => output_args l' = output_args l
    | OutputArgs => input_args l' = input_args l
    end ∧
    last_err l' = Some (FfmpegIncorrectDurationError target actual) ∧
    runs (trace w') = runs (trace w) ++ [args_of_locals l].
Proof.
  intros Hbody Hat Hv.
  destruct (adjust_duration_at s l pre post v x (fsub target actual) Hat Hv)
    as (ia & oa & Hadj & Hnew).
  destruct (remove_unless_last_spec attempt w1) as (f & t & Hrm & Ht).
  pose proof (try_body_trace _ _ _ _ Hbody) as Htr.
  eexists (Locals ia oa _), _. split; [|split; [|split; [|split]]].
  - unfold ffmpeg_attempt, bind at 1. rewrite Hbody.
    unfold bind at 1. rewrite Hrm.
    cbn [input_args output_args last_err]. rewrite Hadj.
    reflexivity.
  - apply Hnew.
  - destruct (Hnew None) as [_ Hsame]. destruct s; exact Hsame.
  - reflexivity.
  - cbn [trace]. rewrite Htr, !runs_app, Ht. cbn. by rewrite !app_nil_r.
Qed.

Lemma ffmpeg_args_duration_at (s : which_args) (l l0 : locals)
    (pre post : list string) (v : string) :
  duration_at s l pre v post →
  match s with
  | InputArgs => output_args l = output_args l0
  | OutputArgs => input_args l = input_args l0
  end →
  args_of_locals l =
  argv_with_duration ffmpeg_path inputs output_path log_level s l0 pre v post.
Proof.
  intros (_ & Hl & _) Hother. unfold ffmpeg_args, argv_with_duration.
  destruct s; cbn in Hl; by rewrite Hl, Hother.
Qed.

(** C1: the duration handler rewrites the value after ['-t'] to the value it
    reads there plus [target_duration - actual_duration], and the rewritten
    value is what the next adjustment starts from.  Let the ['-t'] token the
    handler works on carry a value [v] that reads as the float [x].  If the
    attempt [a1] ends in a duration mismatch [(t1, c1)], the loop goes on and
    the next attempt runs the tool on the same argument vector but for
    [str(x + (t1 - c1))] after that ['-t']; if that attempt [a2] ends in a
    mismatch [(t2, c2)], the loop goes on and the attempt after it runs the
    tool with [str((x + (t1 - c1)) + (t2 - c2))] there.  The hypothesis on
    [str] is that the printed first sum reads back as itself. *)
Theorem ffmpeg_duration_adjust_cumulative (a1 a2 : Z) (rest : list Z)
    (l0 : locals) (w0 w1 w2 : world) (s : which_args)
    (pre post : list string) (v : string) (x t1 c1 t2 c2 : float) :
  let x1 := fadd x (fsub t1 c1) in
  let x2 := fadd x1 (fsub t2 c2) in
  let argv := argv_with_duration ffmpeg_path inputs output_path log_level
                s l0 pre in
  duration_at s l0 pre v post →
  float_of_str v = Some x →
  float_of_str (str_of_float x1) = Some x1 →
  body l0 w0 = (Return (Some (FfmpegIncorrectDurationError t1 c1)), w1) →
  (∀ l w, attempt_at a1 l0 w0 = (Return (Continue, l), w) →
          body l w = (Return (Some (FfmpegIncorrectDurationError t2 c2)), w2)) →
  ∃ l1 w1' l2 w2',
    attempt_at a1 l0 w0 = (Return (Continue, l1), w1') ∧
    duration_at s l1 pre (str_of_float x1) post ∧
    attempt_at a2 l1 w1' = (Return (Continue, l2), w2') ∧
    duration_at s l2 pre (str_of_float x2) post ∧
    runs (trace w1') = runs (trace w0) ++ [argv v post] ∧
    runs (trace w2') =
      runs (trace w0) ++ [argv v post; argv (str_of_float x1) post] ∧
    loop (a1 :: a2 :: rest) l0 w0 = loop rest l2 w2' ∧
    (∀ a3, ∃ t, trace (attempt_at a3 l2 w2').2 =
                trace w2' ++ ERun (argv (str_of_float x2) post) :: t).
Proof.
  intros x1 x2 argv Hat Hv Hround Hb1 Hb2.
  destruct (ffmpeg_attempt_mismatch a1 l0 w0 w1 s pre post v x t1 c1
              Hb1 Hat Hv) as (l1 & w1' & Ha1 & Hat1 & Ho1 & _ & Hr1).
  specialize (Hb2 l1 w1' Ha1).
  destruct (ffmpeg_attempt_mismatch a2 l1 w1' w2 s pre post _ x1 t2 c2
              Hb2 Hat1 Hround) as (l2 & w2' & Ha2 & Hat2 & Ho2 & _ & Hr2).
  assert (Hargs0 : args_of_locals l0 = argv v post).
  { apply ffmpeg_args_duration_at; [exact Hat|by destruct s]. }
  assert (Hargs1 : args_of_locals l1 = argv (str_of_float x1) post).
  { apply ffmpeg_args_duration_at; [exact Hat1|exact Ho1]. }
  assert (Hargs2 : args_of_locals l2 = argv (str_of_float x2) post).
  { apply ffmpeg_args_duration_at; [exact Hat2|].
    destruct s; congruence. }
  exists l1, w1', l2, w2'.
  split; [exact Ha1|]. split; [exact Hat1|]. split; [exact Ha2|].
  split; [exact Hat2|]. split; [|split; [|split]].
  - by rewrite Hr1, Hargs0.
  - rewrite Hr2, Hr1, Hargs0, Hargs1, <- app_assoc. reflexivity.
  - cbn [ffmpeg_for]. unfold bind at 1. rewrite Ha1.
    unfold bind at 1. rewrite Ha2. reflexivity.
  - intros a3. rewrite <- Hargs2. apply ffmpeg_attempt_runs_first.
Qed.

End RetryLoop.

(** ** [ffmpeg] without a validation callback

    This is how [download_yt_video] calls it: only the tool itself can fail,
    the argument lists are never rewritten and the call always returns. *)

Section NoCallback.

Context `{PyNum} {Env : Type}.

Variable run_command :
  list string → gset string → Env → run_result * gset string * Env.
Variable HTTP_ERR_PATTERN_match : string → bool.
Variables (ffmpeg_path : string) (inp : input_path) (inputs : list string)
  (output_path log_level : string) (num_retries : Z).

Abbreviation args_nc :=
  (ffmpeg_args ffmpeg_path inputs output_path log_level).
Abbreviation attempt_nc :=
  (ffmpeg_attempt run_command HTTP_ERR_PATTERN_match ffmpeg_path inputs
     output_path log_level num_retries None).
Abbreviation loop_nc :=
  (ffmpeg_for run_command HTTP_ERR_PATTERN_match ffmpeg_path inp inputs
     output_path log_level num_retries None).

Lemma ffmpeg_attempt_no_callback (attempt : Z) (l : locals)
    (w : world (Env := Env)) :
  ∃ c l' w',
    attempt_nc attempt l w = (Return (c, l'), w') ∧
    (c = Break ∨ c = Continue) ∧
    input_args l' = input_args l ∧ output_args l' = output_args l ∧
    runs (trace w') = runs (trace w) ++ [args_nc l].
Proof.
  unfold ffmpeg_attempt, try_body, remove_if_exists, path_exists, remove,
    log, emit, bind, ret.
  repeat case_match; simplify_eq; cbn [trace fs env];
    eexists _, _, _; (split; [reflexivity|]);
    cbn [input_args output_args trace];
    rewrite ?runs_app; cbn; rewrite ?app_nil_r; auto.
Qed.

Lemma ffmpeg_for_no_callback (attempts : list Z) (l : locals)
    (w : world (Env := Env)) :
  ∃ l' w' k,
    loop_nc attempts l w = (Return l', w') ∧
    runs (trace w') = runs (trace w) ++ replicate k (args_nc l) ∧
    (k ≤ length attempts)%nat ∧ (attempts ≠ [] → 1 ≤ k)%nat.
Proof.
  revert l w. induction attempts as [|a rest IH]; intros l w.
  - exists l, (World (fs w) (env w)
                 (trace w ++ [ELog ERROR
                                (MsgMaxRetries num_retries inp (last_err l))])),
      0%nat.
    split; [reflexivity|]. cbn [trace replicate length].
    rewrite runs_app. cbn. rewrite !app_nil_r.
    split; [reflexivity|]. split; [lia|congruence].
  - destruct (ffmpeg_attempt_no_callback a l w)
      as (c & l1 & w1 & Hatt & Hc & Hia & Hoa & Hruns).
    cbn [ffmpeg_for]. unfold bind at 1. rewrite Hatt.
    destruct Hc as [-> | ->].
    + exists l1, w1, 1%nat. split; [reflexivity|].
      split; [exact Hruns|]. cbn [length]. split; lia.
    + destruct (IH l1 w1) as (l' & w' & k & Hloop & Hr & Hk & _).
      exists l', w', (Datatypes.S k). split; [exact Hloop|].
      split; [|cbn [length]; split; lia].
      rewrite Hr, Hruns, <- app_assoc.
      unfold ffmpeg_args. rewrite Hia, Hoa. reflexivity.
Qed.

Lemma ffmpeg_no_callback (ia oa : option (list string))
    (w : world (Env := Env)) :
  expand_inputs inp = Some inputs →
  ∃ w' k,
    ffmpeg run_command HTTP_ERR_PATTERN_match ffmpeg_path inp output_path
      ia oa log_level num_retries None w = (Return (), w') ∧
    runs (trace w') =
      runs (trace w) ++
      replicate k (args_nc (Locals (default [] ia) (default [] oa) None)) ∧
    (k ≤ Z.to_nat num_retries)%nat ∧ (0 < num_retries → (1 ≤ k)%nat).
Proof.
  intros Hinp.
  destruct (ffmpeg_for_no_callback (range num_retries)
              (Locals (default [] ia) (default [] oa) None) w)
    as (l' & w' & k & Hloop & Hr & Hk & Hpos).
  rewrite length_range in Hk.
  exists w', k. split; [|split; [exact Hr|split; [exact Hk|]]].
  - unfold ffmpeg. rewrite Hinp. unfold bind at 1. rewrite Hloop. reflexivity.
  - intros Hn. apply Hpos. intros Hnil.
    apply (f_equal length) in Hnil. rewrite length_range in Hnil.
    cbn in Hnil. lia.
Qed.

End NoCallback.

(** ** [download_yt_video] *)

Lemma difference_absent (f : gset string) (p : string) :
  p ∉ f → f = f ∖ {[p]}.
Proof. set_solver. Qed.

Lemma difference_three (f : gset string) (va v a : string) :
  f ∖ {[va]} ∖ {[v]} ∖ {[a]} = f ∖ {[va; v; a]}.
Proof. set_solver. Qed.

Lemma elem_of_removed_paths (f : gset string) (va v a p : string) :
  p ∈ removed_paths f va v a ↔ p ∈ [va; v; a] ∧ p ∈ f.
Proof.
  unfold removed_paths. rewrite !elem_of_app.
  destruct (decide (a = va)), (decide (a = v)), (decide (v = va));
    repeat case_bool_decide; set_solver.
Qed.

Section Segment.

Context `{PyNum} {Env : Type}.

Variable run_command :
  list string → gset string → Env → run_result * gset string * Env.
Variable HTTP_ERR_PATTERN_match : string → bool.
Variable get_media_filename : string → float → float → string.
Variable getFormats_url : string → Env → option string.

Variables (ytid : string) (ts_start ts_end : float)
  (output_dir ffmpeg_path ffprobe_path : string)
  (audio_codec audio_format : string) (audio_sample_rate audio_bit_depth : Z)
  (video_codec video_format video_mode : string)
  (video_frame_rate num_retries : Z).

Abbreviation media_filename := (get_media_filename ytid ts_start ts_end).
Abbreviation videowithaudio_filepath :=
  (filepath output_dir "video_audio" media_filename video_format).
Abbreviation video_filepath :=
  (filepath output_dir "video" media_filename video_format).
Abbreviation audio_filepath :=
  (filepath output_dir "audio" media_filename audio_format).
Abbreviation download :=
  (download_yt_video run_command HTTP_ERR_PATTERN_match get_media_filename
     getFormats_url ytid ts_start ts_end output_dir ffmpeg_path ffprobe_path
     audio_codec audio_format audio_sample_rate audio_bit_depth).

Lemma remove_if_exists_spec (p : string) (w : world (Env := Env)) :
  remove_if_exists p w =
  (Return (),
   World (fs w ∖ {[p]}) (env w)
     (trace w ++ if bool_decide (p ∈ fs w) then [ERemove p] else [])).
Proof.
  destruct w as [f e t].
  unfold remove_if_exists, path_exists, remove, bind, ret. cbn [fs env trace].
  case_bool_decide as Hp; [reflexivity|].
  rewrite app_nil_r. do 2 f_equal. by apply difference_absent.
Qed.

(** The three deletions at the head of [download_yt_video]. *)
Lemma cleanup_spec (va v a : string) (w : world (Env := Env)) :
  ∃ removed : list string,
    (∀ (A : Type) (k : M A),
       bind (remove_if_exists va)
         (λ _, bind (remove_if_exists v)
                 (λ _, bind (remove_if_exists a) (λ _, k))) w =
       k (World (fs w ∖ {[va; v; a]}) (env w)
            (trace w ++ (ERemove <$> removed)))) ∧
    (∀ p, p ∈ removed ↔ p ∈ [va; v; a] ∧ p ∈ fs w).
Proof.
  destruct w as [f e t].
  exists (removed_paths f va v a).
  split.
  - intros A k. unfold bind.
    rewrite !remove_if_exists_spec. cbn [fs env trace].
    f_equal. f_equal; [apply difference_three|].
    unfold removed_paths. rewrite <- !app_assoc, !fmap_app.
    repeat case_bool_decide; reflexivity.
  - intros p. apply elem_of_removed_paths.
Qed.

(** C4, as the code has it: for an identifier whose length is not 11,
    [download_yt_video] returns [(None, None)] without resolving the
    identifier and without running the tool, but only after the cleanup at
    its head: each of the three output paths of the request that exists is
    deleted.  The filesystem afterwards is the one before minus these three
    paths, and the only effects are the deletions and the print of the
    identifier. *)
Theorem download_yt_video_malformed_id (w : world (Env := Env)) :
  String.length ytid ≠ 11%nat →
  ∃ removed : list string,
    download video_codec video_format video_mode video_frame_rate
      num_retries w =
    (Return (None, None),
     World (fs w ∖ {[videowithaudio_filepath; video_filepath; audio_filepath]})
       (env w) (trace w ++ (ERemove <$> removed) ++ [EPrint ytid])) ∧
    (∀ p, p ∈ removed ↔
          p ∈ [videowithaudio_filepath; video_filepath; audio_filepath] ∧
          p ∈ fs w) ∧
    runs ((ERemove <$> removed) ++ [EPrint ytid]) = [].
Proof.
  intros Hlen.
  destruct (cleanup_spec videowithaudio_filepath video_filepath
              audio_filepath w) as (removed & Hclean & Hrem).
  exists removed. split; [|split; [exact Hrem|]].
  - unfold download_yt_video. rewrite Hclean.
    apply Nat.eqb_neq in Hlen. rewrite Hlen. cbn [negb].
    unfold bind, emit, ret. cbn [fs env trace].
    by rewrite <- app_assoc.
  - rewrite runs_app. cbn. rewrite app_nil_r. apply runs_removes.
Qed.

(** The call up to the end of the audio extraction, for a well-formed
    identifier whose url resolves. *)
Lemma download_yt_video_audio_stage (url : string) (w : world (Env := Env))
    (vc vf vm : string) (vfr : Z) :
  String.length ytid = 11%nat →
  getFormats_url ytid (env w) = Some url →
  ∃ w1 k,
    (k ≤ Z.to_nat num_retries)%nat ∧ (0 < num_retries → (1 ≤ k)%nat) ∧
    runs (trace w1) =
      runs (trace w) ++
      replicate k (audio_args ffmpeg_path url
                     (filepath output_dir "audio" media_filename audio_format)
                     ts_start audio_codec audio_format audio_sample_rate
                     audio_bit_depth) ∧
    download_yt_video run_command HTTP_ERR_PATTERN_match get_media_filename
      getFormats_url ytid ts_start ts_end output_dir ffmpeg_path ffprobe_path
      audio_codec audio_format audio_sample_rate audio_bit_depth
      vc vf vm vfr num_retries w =
    (if negb (bool_decide (vc = "h264")) then
       raise (NotImplementedError vc)
     else
       bind
         (ffmpeg run_command HTTP_ERR_PATTERN_match ffmpeg_path (InStr url)
            (filepath output_dir "video" media_filename vf)
            (Some ["-n"; "-ss"; str_of_float ts_start])
            (Some ["-t"; str_of_int 10; "-f"; vf; "-crf"; "0";
                   "-preset"; "medium"; "-r"; str_of_int vfr; "-an";
                   "-vcodec"; vc])
            "error" num_retries None)
         (λ _,
            bind
              (ffmpeg run_command HTTP_ERR_PATTERN_match ffmpeg_path
                 (InIterable
                    [filepath output_dir "video" media_filename vf;
                     filepath output_dir "audio" media_filename audio_format])
                 (filepath output_dir "video_audio" media_filename vf)
                 (Some ["-n"])
                 (Some ["-f"; vf; "-r"; str_of_int vfr; "-vcodec"; vc;
                        "-acodec"; "aac"; "-ar"; str_of_int audio_sample_rate;
                        "-ac"; str_of_int 2; "-strict"; "experimental"])
                 "error" num_retries None)
              (λ _,
                 bind (log INFO (MsgDownloaded ytid ts_start ts_end))
                   (λ _,
                      ret (Some (filepath output_dir "video" media_filename vf),
                           Some (filepath output_dir "audio" media_filename
                                   audio_format)))))) w1.
Proof.
  intros Hlen Hurl.
  destruct (cleanup_spec (filepath output_dir "video_audio" media_filename vf)
              (filepath output_dir "video" media_filename vf)
              (filepath output_dir "audio" media_filename audio_format) w)
    as (removed & Hclean & _).
  unfold download_yt_video. rewrite Hclean.
  apply Nat.eqb_eq in Hlen. rewrite Hlen. cbn [negb].
  unfold bind at 1. unfold get_url. cbn [fs env trace]. rewrite Hurl.
  match goal with
  | |- context [bind (ffmpeg ?rc ?h ?fp ?i ?o ?ia ?oa ?ll ?n None) _ ?w0] =>
      destruct (ffmpeg_no_callback rc h fp i ["-i"; url] o ll n ia oa w0
                  eq_refl) as (w1 & k & Hff & Hruns & Hk & Hpos)
  end.
  exists w1, k. split; [exact Hk|]. split; [exact Hpos|]. split.
  - rewrite Hruns. cbn [trace]. rewrite !runs_app, runs_removes. cbn.
    rewrite !app_nil_r. reflexivity.
  - unfold bind at 1. rewrite Hff. reflexivity.
Qed.

(** C3, as the code has it: for a well-formed identifier whose url resolves
    and a video codec other than [h264], [download_yt_video] raises
    [NotImplementedError], and it does so after the audio extraction: the
    tool runs of the call are the attempts of the audio extraction (at least
    one when [num_retries] is positive, at most [num_retries]); no video
    extraction and no mux is run. *)
Theorem download_yt_video_unsupported_codec (url : string)
    (w : world (Env := Env)) :
  String.length ytid = 11%nat →
  video_codec ≠ "h264" →
  getFormats_url ytid (env w) = Some url →
  ∃ w' k,
    download video_codec video_format video_mode video_frame_rate
      num_retries w = (Raise (NotImplementedError video_codec), w') ∧
    runs (trace w') =
      runs (trace w) ++
      replicate k (audio_args ffmpeg_path url audio_filepath ts_start
                     audio_codec audio_format audio_sample_rate
                     audio_bit_depth) ∧
    (k ≤ Z.to_nat num_retries)%nat ∧ (0 < num_retries → (1 ≤ k)%nat).
Proof.
  intros Hlen Hcodec Hurl.
  destruct (download_yt_video_audio_stage url w video_codec video_format
              video_mode video_frame_rate Hlen Hurl)
    as (w1 & k & Hk & Hpos & Hruns & Hdl).
  exists w1, k. rewrite Hdl.
  rewrite bool_decide_eq_false_2 by exact Hcodec.
  split; [reflexivity|]. split; [exact Hruns|]. split; assumption.
Qed.

(** C9, as the code has it: for a well-formed identifier whose url resolves
    and the [h264] codec, whatever the tool does on each run,
    [download_yt_video] returns the pair of the video path and the audio
    path, and its tool runs are the attempts of the audio extraction, then
    those of the video extraction, then those of the mux, whose two inputs
    are the video path and the audio path.  Each stage is attempted at most
    [num_retries] times and, when [num_retries] is positive, at least once:
    the mux is run even when both extractions used up their retries, and the
    returned value is the same as after a run where everything succeeded. *)
Theorem download_yt_video_always_muxes (url : string)
    (w : world (Env := Env)) :
  String.length ytid = 11%nat →
  video_codec = "h264" →
  getFormats_url ytid (env w) = Some url →
  ∃ w' ka kv km,
    download video_codec video_format video_mode video_frame_rate
      num_retries w =
      (Return (Some video_filepath, Some audio_filepath), w') ∧
    runs (trace w') =
      runs (trace w) ++
      replicate ka (audio_args ffmpeg_path url audio_filepath ts_start
                      audio_codec audio_format audio_sample_rate
                      audio_bit_depth) ++
      replicate kv (video_args ffmpeg_path url video_filepath ts_start
                      video_codec video_format video_frame_rate) ++
      replicate km (mux_args ffmpeg_path video_filepath audio_filepath
                      videowithaudio_filepath video_codec video_format
                      video_frame_rate audio_sample_rate) ∧
    (ka ≤ Z.to_nat num_retries)%nat ∧ (kv ≤ Z.to_nat num_retries)%nat ∧
    (km ≤ Z.to_nat num_retries)%nat ∧
    (0 < num_retries → (1 ≤ ka)%nat ∧ (1 ≤ kv)%nat ∧ (1 ≤ km)%nat).
Proof.
  intros Hlen Hcodec Hurl.
  destruct (download_yt_video_audio_stage url w video_codec video_format
              video_mode video_frame_rate Hlen Hurl)
    as (w1 & ka & Hka & Hposa & Hra & Hdl).
  rewrite Hdl. rewrite bool_decide_eq_true_2 by exact Hcodec. cbn [negb].
  match goal with
  | |- context [bind (ffmpeg ?rc ?h ?fp ?i ?o ?ia ?oa ?ll ?n None) _ w1] =>
      destruct (ffmpeg_no_callback rc h fp i ["-i"; url] o ll n ia oa w1
                  eq_refl) as (w2 & kv & Hffv & Hrv & Hkv & Hposv)
  end.
  match goal with
  | |- context [bind (ffmpeg ?rc ?h ?fp (InIterable ?ps) ?o ?ia ?oa ?ll ?n
                        None) _] =>
      destruct (ffmpeg_no_callback rc h fp (InIterable ps)
                  ["-i"; video_filepath; "-i"; audio_filepath]
                  o ll n ia oa w2 eq_refl)
        as (w3 & km & Hffm & Hrm & Hkm & Hposm)
  end.
  eexists _, ka, kv, km. split; [|split; [|repeat split; auto]].
  - unfold bind at 1. rewrite Hffv. unfold bind at 1. rewrite Hffm.
    reflexivity.
  - cbn [trace]. rewrite runs_app, Hrm, Hrv, Hra. cbn.
    rewrite app_nil_r, <- !app_assoc. reflexivity.
Qed.

End Segment.

(** ** [download_subset_videos] *)

Section Scheduler.

Context `{PyNum} {Env : Type}.

Variable get_media_filename : string → float → float → string.
Variable get_subset_name : string → string.
Variable csv_rows : string → list (list string).
Variables (data_dir ffmpeg_path ffprobe_path : string) (cfg : kwargs).

(** The scheduler as written never reaches its loop: it slices the reader
    object, which raises [TypeError]; the pool is closed and joined by the
    [finally] clause and the exception leaves the function. *)
Lemma download_subset_videos_spec (subset_path : string) (num_workers : Z)
    (w : world (Env := Env)) :
  1 ≤ num_workers →
  download_subset_videos get_media_filename get_subset_name csv_rows
    subset_path data_dir ffmpeg_path ffprobe_path num_workers cfg w =
  (Raise TypeError,
   World (fs w) (env w)
     (trace w ++ [ELog INFO (MsgStarting (get_subset_name subset_path));
                  EPool num_workers; EPoolClose; EPoolJoin])).
Proof.
  intros Hn. unfold download_subset_videos, bind, log, emit, try_finally,
    raise, slice_from.
  rewrite bool_decide_eq_false_2 by lia. cbn.
  by rewrite <- !app_assoc.
Qed.

(** C8: on every metadata file, and with at least one worker,
    [download_subset_videos] raises [TypeError] at [subset_data[1:]], before
    any row is read: no row is reported as skipped and none is submitted.
    The header is not skipped and the rows after it are not processed. *)
Theorem download_subset_videos_slices_reader (subset_path : string)
    (num_workers : Z) (w : world (Env := Env)) :
  1 ≤ num_workers →
  ∃ w',
    download_subset_videos get_media_filename get_subset_name csv_rows
      subset_path data_dir ffmpeg_path ffprobe_path num_workers cfg w =
    (Raise TypeError, w') ∧
    submissions (trace w') = submissions (trace w) ∧
    trace w' = trace w ++
               [ELog INFO (MsgStarting (get_subset_name subset_path));
                EPool num_workers; EPoolClose; EPoolJoin].
Proof.
  intros Hn. eexists. split; [by apply download_subset_videos_spec|].
  cbn [trace]. split; [|reflexivity].
  rewrite submissions_app. cbn. by rewrite app_nil_r.
Qed.

(** C7: on every metadata file and every filesystem, so also when each row
    has its three outputs on disk, and with at least one worker,
    [download_subset_videos] raises [TypeError] before the loop that tests
    the three paths is entered: the events [t] of the call hold no
    ['Already downloaded ... Skipping.'] line for any row and no
    ['Finished download jobs'] line, no job is submitted and no tool is run,
    and the filesystem is unchanged.  No job is reported as skipped, and the
    call does not return. *)
Theorem download_subset_videos_reports_no_skip (subset_path : string)
    (num_workers : Z) (w : world (Env := Env)) :
  1 ≤ num_workers →
  ∃ w' t,
    download_subset_videos get_media_filename get_subset_name csv_rows
      subset_path data_dir ffmpeg_path ffprobe_path num_workers cfg w =
    (Raise TypeError, w') ∧
    trace w' = trace w ++ t ∧
    fs w' = fs w ∧
    (∀ ytid ts_start ts_end,
       ELog INFO (MsgAlreadyDownloaded ytid ts_start ts_end) ∉ t) ∧
    (∀ name, ELog INFO (MsgFinished name) ∉ t) ∧
    submissions t = [] ∧
    runs t = [].
Proof.
  intros Hn. do 2 eexists.
  split; [by apply download_subset_videos_spec|].
  split; [reflexivity|]. split; [reflexivity|].
  split; [|split; [|split; reflexivity]].
  - intros ytid ts_start ts_end Hin.
    repeat (apply elem_of_cons in Hin as [Hin|Hin]; [discriminate|]).
    by apply elem_of_nil in Hin.
  - intros name Hin.
    repeat (apply elem_of_cons in Hin as [Hin|Hin]; [discriminate|]).
    by apply elem_of_nil in Hin.
Qed.

End Scheduler.

(** * Further properties of the code *)

(** ** The duration handler: which list is rewritten, and how it fails *)

Section DurationHandler.

Context `{PyNum}.

Lemma bump_duration_exn (l : list string) (d : float) (e : exn) :
  bump_duration l d = inl e → e = ValueError ∨ e = IndexError.
Proof.
  unfold bump_duration. intros Hb.
  repeat case_match; simplify_eq; auto.
Qed.

Lemma bump_duration_length (l l' : list string) (d : float) :
  bump_duration l d = inr l' → length l' = length l.
Proof.
  unfold bump_duration. intros Hb.
  repeat case_match; simplify_eq. apply length_insert.
Qed.

Lemma bump_duration_last (pre : list string) (d : float) :
  "-t" ∉ pre → bump_duration (pre ++ ["-t"]) d = inl IndexError.
Proof.
  intros Hpre. unfold bump_duration.
  rewrite index_first by exact Hpre.
  rewrite lookup_ge_None_2; [reflexivity|].
  rewrite length_app. cbn. lia.
Qed.

Lemma bump_duration_not_float (pre post : list string) (v : string)
    (d : float) :
  "-t" ∉ pre →
  float_of_str v = None →
  bump_duration (pre ++ "-t" :: v :: post) d = inl ValueError.
Proof.
  intros Hpre Hv. unfold bump_duration.
  rewrite index_first by exact Hpre.
  replace (length pre + 1)%nat with (length pre + 1 + 0)%nat by lia.
  rewrite (lookup_app_r pre) by lia.
  replace (length pre + 1 + 0 - length pre)%nat with 1%nat by lia.
  cbn [lookup list_lookup]. by rewrite Hv.
Qed.

Lemma adjust_duration_exn (ia oa : list string) (d : float) (e : exn) :
  adjust_duration ia oa d = inl e → e = ValueError ∨ e = IndexError.
Proof.
  unfold adjust_duration. intros Ha.
  destruct (bump_duration ia d) as [e1|ia'] eqn:E1; [|discriminate].
  destruct (bump_duration_exn _ _ _ E1) as [-> | ->].
  - destruct (bump_duration oa d) as [e2|oa'] eqn:E2; [|discriminate].
    simplify_eq. by apply bump_duration_exn in E2.
  - simplify_eq. auto.
Qed.

Lemma adjust_duration_length (ia oa ia' oa' : list string) (d : float) :
  adjust_duration ia oa d = inr (ia', oa') →
  length ia' = length ia ∧ length oa' = length oa.
Proof.
  unfold adjust_duration. intros Ha.
  destruct (bump_duration ia d) as [e1|ia1] eqn:E1.
  - destruct e1; simplify_eq.
    destruct (bump_duration oa d) as [e2|oa1] eqn:E2; simplify_eq.
    split; [reflexivity|]. by apply bump_duration_length in E2.
  - simplify_eq. split; [|reflexivity]. by apply bump_duration_length in E1.
Qed.

(** X1: when [input_args] carries a ['-t'] whose value reads as a float, the
    duration handler rewrites that value and leaves [output_args] as it is,
    whatever [output_args] holds, a ['-t'] of its own included. *)
Theorem adjust_duration_prefers_input_args (pre post oa : list string)
    (v : string) (x d : float) :
  "-t" ∉ pre →
  float_of_str v = Some x →
  adjust_duration (pre ++ "-t" :: v :: post) oa d =
  inr (pre ++ "-t" :: str_of_float (fadd x d) :: post, oa).
Proof.
  intros Hpre Hv. unfold adjust_duration.
  by rewrite (bump_duration_first _ _ _ x).
Qed.

(** X2: when the value after the ['-t'] of [input_args] does not read as a
    float, the [ValueError] of [float()] is caught by the same [except] as a
    missing token: the handler falls back to [output_args], rewrites the
    value after its first ['-t'] and leaves [input_args] untouched. *)
Theorem adjust_duration_falls_back_on_bad_value
    (pre post pre' post' : list string) (v v' : string) (x d : float) :
  "-t" ∉ pre →
  float_of_str v = None →
  "-t" ∉ pre' →
  float_of_str v' = Some x →
  adjust_duration (pre ++ "-t" :: v :: post) (pre' ++ "-t" :: v' :: post') d =
  inr (pre ++ "-t" :: v :: post,
       pre' ++ "-t" :: str_of_float (fadd x d) :: post').
Proof.
  intros Hpre Hv Hpre' Hv'. unfold adjust_duration.
  rewrite bump_duration_not_float by assumption.
  by rewrite (bump_duration_first _ _ _ x).
Qed.

(** X3: a successful adjustment leaves one of the two argument lists as it
    was and, in the other, rewrites the slot after its first ['-t'] and
    nothing else: that slot held a value that reads as a float [x] and now
    holds [str(x + duration_diff)], every other position keeps its token and
    both lists keep their length. *)
Theorem adjust_duration_rewrites_one_token (ia oa ia' oa' : list string)
    (d : float) :
  adjust_duration ia oa d = inr (ia', oa') →
  length ia' = length ia ∧ length oa' = length oa ∧
  ((oa' = oa ∧
    ∃ i v x, PyStr.index "-t" ia = Some i ∧
             ia !! S i = Some v ∧ float_of_str v = Some x ∧
             ia' !! S i = Some (str_of_float (fadd x d)) ∧
             ∀ j, j ≠ S i → ia' !! j = ia !! j) ∨
   (ia' = ia ∧
    ∃ i v x, PyStr.index "-t" oa = Some i ∧
             oa !! S i = Some v ∧ float_of_str v = Some x ∧
             oa' !! S i = Some (str_of_float (fadd x d)) ∧
             ∀ j, j ≠ S i → oa' !! j = oa !! j)).
Proof.
  intros Ha. destruct (adjust_duration_length _ _ _ _ _ Ha) as [Hia Hoa].
  split; [exact Hia|]. split; [exact Hoa|].
  assert (Hb : ∀ l l', bump_duration l d = inr l' →
                ∃ i v x, PyStr.index "-t" l = Some i ∧
                         l !! S i = Some v ∧ float_of_str v = Some x ∧
                         l' !! S i = Some (str_of_float (fadd x d)) ∧
                         ∀ j, j ≠ S i → l' !! j = l !! j).
  { intros l l'. unfold bump_duration.
    destruct (PyStr.index "-t" l) as [i|]; [|discriminate].
    replace (i + 1)%nat with (S i) by lia.
    destruct (l !! S i) as [v|] eqn:Ev; [|discriminate].
    destruct (float_of_str v) as [x|] eqn:Ex; [|discriminate].
    intros [= <-]. exists i, v, x.
    split; [reflexivity|]. split; [exact Ev|]. split; [exact Ex|].
    split.
    - apply list_lookup_insert_eq. by eapply lookup_lt_Some.
    - intros j Hj. apply list_lookup_insert_ne. lia. }
  unfold adjust_duration in Ha.
  destruct (bump_duration ia d) as [e1|ia1] eqn:E1.
  - destruct e1; simplify_eq.
    destruct (bump_duration oa d) as [e2|oa1] eqn:E2; simplify_eq.
    right. split; [reflexivity|]. by apply Hb.
  - simplify_eq. left. split; [reflexivity|]. by apply Hb.
Qed.

End DurationHandler.

(** ** The retry loop, whatever the tool and the callback do *)

Section RetryLoopEffects.

Context `{PyNum} {Env : Type}.

Variable run_command :
  list string → gset string → Env → run_result * gset string * Env.
Variable HTTP_ERR_PATTERN_match : string → bool.
Variables (ffmpeg_path : string) (inp : input_path) (inputs : list string)
  (output_path log_level : string) (num_retries : Z)
  (validation_callback : option (callback (Env := Env))).

Abbreviation args_in := (ffmpeg_args ffmpeg_path inputs output_path log_level).
Abbreviation try_in :=
  (try_body run_command ffmpeg_path inputs output_path log_level
     validation_callback).
Abbreviation attempt_in :=
  (ffmpeg_attempt run_command HTTP_ERR_PATTERN_match ffmpeg_path inputs
     output_path log_level num_retries validation_callback).
Abbreviation loop_in :=
  (ffmpeg_for run_command HTTP_ERR_PATTERN_match ffmpeg_path inp inputs
     output_path log_level num_retries validation_callback).

(** One attempt: one tool run, at most one deletion, of the output path, and
    only a [ValueError] or an [IndexError] can leave it. *)
Lemma ffmpeg_attempt_effects (attempt : Z) (l : locals)
    (w : world (Env := Env)) :
  ∃ c l' w',
    attempt_in attempt l w = (Return (c, l'), w') ∧
    runs (trace w') = runs (trace w) ++ [args_in l] ∧
    (removals (trace w') = removals (trace w) ∨
     removals (trace w') = removals (trace w) ++ [output_path]) ∧
    length (input_args l') = length (input_args l) ∧
    length (output_args l') = length (output_args l) ∧
    (∀ e, c = Propagate e → e = ValueError ∨ e = IndexError).
Proof.
  unfold ffmpeg_attempt, try_body, remove_unless_last, remove_if_exists,
    path_exists, remove, log, emit, bind, ret.
  repeat case_match; simplify_eq; cbn [trace fs env];
    eexists _, _, _; (split; [reflexivity|]);
    cbn [input_args output_args trace];
    rewrite ?runs_app, ?removals_app; cbn; rewrite ?app_nil_r;
    repeat match goal with
           | Ha : adjust_duration _ _ _ = inr _ |- _ =>
               apply adjust_duration_length in Ha; destruct Ha
           | Ha : adjust_duration _ _ _ = inl _ |- _ =>
               apply adjust_duration_exn in Ha
           end;
    (split; [reflexivity|]); (split; [auto|]);
    (split; [auto|]); (split; [auto|]);
    intros e' He'; simplify_eq; auto.
Qed.

Lemma ffmpeg_for_effects (attempts : list Z) (l : locals)
    (w : world (Env := Env)) :
  ∃ r w' rs m,
    loop_in attempts l w = (r, w') ∧
    runs (trace w') = runs (trace w) ++ rs ∧
    (length rs ≤ length attempts)%nat ∧
    Forall (same_shape ffmpeg_path inputs output_path log_level l) rs ∧
    removals (trace w') = removals (trace w) ++ replicate m output_path ∧
    (m ≤ length attempts)%nat ∧
    ((∃ l', r = Return l') ∨ r = Raise ValueError ∨ r = Raise IndexError).
Proof.
  revert l w. induction attempts as [|a rest IH]; intros l w.
  - eexists _, _, [], 0%nat. split; [reflexivity|].
    cbn [trace replicate length]. rewrite runs_app, removals_app. cbn.
    rewrite !app_nil_r. repeat split; eauto.
  - destruct (ffmpeg_attempt_effects a l w)
      as (c & l1 & w1 & Hatt & Hruns & Hrm & Hia & Hoa & Hexn).
    assert (Hshape : same_shape ffmpeg_path inputs output_path log_level l
                      (args_in l)).
    { exists (input_args l), (output_args l). repeat split. }
    assert (Hm1 : ∃ m1, removals (trace w1) =
                        removals (trace w) ++ replicate m1 output_path ∧
                        (m1 ≤ 1)%nat).
    { destruct Hrm as [Hrm|Hrm]; [exists 0%nat|exists 1%nat];
        rewrite Hrm; cbn; rewrite ?app_nil_r; split; auto. }
    destruct Hm1 as (m1 & Hrm1 & Hm1).
    cbn [ffmpeg_for]. unfold bind at 1. rewrite Hatt.
    destruct c as [| |e].
    + exists (Return l1), w1, [args_in l], m1.
      split; [reflexivity|]. split; [exact Hruns|]. cbn [length].
      split; [lia|]. split; [by constructor|]. split; [exact Hrm1|].
      split; [lia|eauto].
    + destruct (IH l1 w1) as (r & w' & rs & m & Hloop & Hr & Hlen & Hsh &
                               Hrem & Hm & Hres).
      exists r, w', (args_in l :: rs), (m1 + m)%nat.
      split; [exact Hloop|]. split; [by rewrite Hr, Hruns, <- app_assoc|].
      cbn [length]. split; [lia|]. split.
      * constructor; [exact Hshape|].
        eapply Forall_impl; [exact Hsh|].
        intros args (ia & oa & -> & Hi & Ho). exists ia, oa.
        repeat split; congruence.
      * split; [|split; [lia|exact Hres]].
        rewrite Hrem, Hrm1, <- app_assoc. by rewrite replicate_add.
    + exists (Raise e), w1, [args_in l], m1.
      split; [reflexivity|]. split; [exact Hruns|]. cbn [length].
      split; [lia|]. split; [by constructor|]. split; [exact Hrm1|].
      split; [lia|].
      destruct (Hexn e eq_refl) as [-> | ->]; auto.
Qed.

Lemma ffmpeg_attempt_success (attempt : Z) (rest : list Z) (l : locals)
    (w w1 : world (Env := Env)) :
  try_in l w = (Return None, w1) →
  loop_in (attempt :: rest) l w = (Return l, w1).
Proof.
  intros Hbody. cbn [ffmpeg_for]. unfold bind at 1.
  unfold ffmpeg_attempt, bind at 1. rewrite Hbody. reflexivity.
Qed.

(** X4: a run of the tool that succeeds, and validates when a callback was
    passed, ends the call: the attempts that remain are not made, nothing is
    deleted or logged after the run, and the loop returns normally with the
    argument lists as they were. *)
Theorem ffmpeg_success_stops (attempt : Z) (rest : list Z) (l : locals)
    (w w1 : world (Env := Env)) :
  try_in l w = (Return None, w1) →
  loop_in (attempt :: rest) l w = (Return l, w1) ∧
  trace w1 = trace w ++ [ERun (args_in l)].
Proof.
  intros Hbody. split; [by apply ffmpeg_attempt_success|].
  eapply try_body_trace. exact Hbody.
Qed.

(** X5: a failed run whose stderr neither ends with the already-exists
    marker nor matches the HTTP error pattern is logged at ERROR level, the
    output path is deleted when it exists, and the loop goes on to the next
    attempt.  Unlike the validation handlers, this deletion is not skipped on
    the last attempt: after the attempt the output path never exists. *)
Theorem ffmpeg_other_failure_deletes_output (attempt : Z) (rest : list Z)
    (l : locals) (w : world (Env := Env)) (stderr : string)
    (f1 : gset string) (e1 : Env) :
  run_command (args_in l) (fs w) (env w) = (RunFailed stderr, f1, e1) →
  PyStr.endswith (PyStr.rstrip stderr) "already exists. Exiting." = false →
  HTTP_ERR_PATTERN_match (PyStr.rstrip stderr) = false →
  let l' := Locals (input_args l) (output_args l)
              (Some (SubprocessError stderr)) in
  let w' := World (f1 ∖ {[output_path]}) e1
              (trace w ++
               [ERun (args_in l);
                ELog ERROR (MsgRetrying (SubprocessError stderr))] ++
               (if bool_decide (output_path ∈ f1)
                then [ERemove output_path] else [])) in
  attempt_in attempt l w = (Return (Continue, l'), w') ∧
  loop_in (attempt :: rest) l w = loop_in rest l' w' ∧
  output_path ∉ fs w'.
Proof.
  intros Hrun Hend Hhttp l' w'.
  assert (Hatt : attempt_in attempt l w = (Return (Continue, l'), w')).
  { unfold ffmpeg_attempt, bind at 1.
    rewrite (try_body_failed _ _ _ _ _ _ _ _ _ _ _ Hrun), Hend, Hhttp.
    unfold bind, log, emit. cbn [fs env trace].
    rewrite remove_if_exists_spec. cbn [fs env trace].
    subst l' w'. by rewrite <- !app_assoc. }
  split; [exact Hatt|]. split.
  - cbn [ffmpeg_for]. unfold bind at 1. by rewrite Hatt.
  - subst w'. cbn [fs]. set_solver.
Qed.

(** X6: when the validation callback rejects the output with an
    [FfmpegValidationError], the attempt is retried after an INFO line, and
    the output path is deleted first, except on the last attempt of the
    range ([attempt >= num_retries - 1]), where the rejected output is left
    in place. *)
Theorem ffmpeg_validation_failure_keeps_last_output (attempt : Z)
    (l : locals) (w w1 : world (Env := Env)) (msg : string) :
  try_in l w = (Return (Some (FfmpegValidationError msg)), w1) →
  ∃ w',
    attempt_in attempt l w =
      (Return (Continue, Locals (input_args l) (output_args l)
                           (Some (FfmpegValidationError msg))), w') ∧
    env w' = env w1 ∧
    (attempt < num_retries - 1 →
     fs w' = fs w1 ∖ {[output_path]} ∧ output_path ∉ fs w') ∧
    (num_retries - 1 ≤ attempt →
     fs w' = fs w1 ∧ removals (trace w') = removals (trace w1)).
Proof.
  intros Hbody. unfold ffmpeg_attempt, bind at 1. rewrite Hbody.
  unfold remove_unless_last.
  case_bool_decide as Hlast.
  - unfold bind at 1. rewrite remove_if_exists_spec.
    eexists. split; [reflexivity|]. cbn [fs env trace].
    split; [reflexivity|]. split; [|lia].
    intros _. split; [reflexivity|set_solver].
  - eexists. split; [reflexivity|]. cbn [fs env trace].
    split; [reflexivity|]. split; [lia|].
    intros _. split; [reflexivity|].
    rewrite removals_app. cbn. by rewrite app_nil_r.
Qed.

Lemma ffmpeg_mismatch_raises (attempt : Z) (rest : list Z) (l : locals)
    (w w1 : world (Env := Env)) (target actual : float) (ex : exn) :
  try_in l w =
    (Return (Some (FfmpegIncorrectDurationError target actual)), w1) →
  adjust_duration (input_args l) (output_args l) (fsub target actual) =
    inl ex →
  ∃ w',
    loop_in (attempt :: rest) l w = (Raise ex, w') ∧
    runs (trace w') = runs (trace w) ++ [args_in l] ∧
    trace w' =
      trace w ++ ERun (args_in l) ::
      if bool_decide (attempt < num_retries - 1) &&
         bool_decide (output_path ∈ fs w1)
      then [ERemove output_path] else [].
Proof.
  intros Hbody Hadj.
  destruct (remove_unless_last_trace output_path num_retries attempt w1)
    as (f & Hrm).
  pose proof (try_body_trace _ _ _ _ _ _ _ _ _ _ Hbody) as Htr.
  eexists. split; [|split].
  - cbn [ffmpeg_for]. unfold bind at 1.
    unfold ffmpeg_attempt, bind at 1. rewrite Hbody.
    unfold bind at 1. rewrite Hrm.
    cbn [input_args output_args]. rewrite Hadj. reflexivity.
  - cbn [trace]. rewrite Htr, !runs_app.
    destruct (_ && _); cbn; by rewrite !app_nil_r.
  - cbn [trace]. rewrite Htr, <- app_assoc. reflexivity.
Qed.

(** X7: a duration mismatch when neither argument list has a ['-t'] token is
    not retried: the [ValueError] of the second [index('-t')] leaves the
    handler and the call, after the one tool run of that attempt.  The events
    of the call are that run and, unless the attempt is the last one or the
    path is absent after the run, the deletion of the output path: the
    attempts that remain are not made and nothing is logged, neither the
    retrying line nor the exhausted-retries line. *)
Theorem ffmpeg_mismatch_without_duration_token_raises (attempt : Z)
    (rest : list Z) (l : locals) (w w1 : world (Env := Env))
    (target actual : float) :
  try_in l w =
    (Return (Some (FfmpegIncorrectDurationError target actual)), w1) →
  "-t" ∉ input_args l →
  "-t" ∉ output_args l →
  ∃ w',
    loop_in (attempt :: rest) l w = (Raise ValueError, w') ∧
    runs (trace w') = runs (trace w) ++ [args_in l] ∧
    trace w' =
      trace w ++ ERun (args_in l) ::
      (if bool_decide (attempt < num_retries - 1) &&
          bool_decide (output_path ∈ fs w1)
       then [ERemove output_path] else []) ∧
    (∀ lv m, ELog lv m ∉ drop (length (trace w)) (trace w')).
Proof.
  intros Hbody Hia Hoa.
  destruct (ffmpeg_mismatch_raises attempt rest l w w1 target actual
              ValueError Hbody) as (w' & Hloop & Hruns & Htrace).
  { unfold adjust_duration. by rewrite !bump_duration_absent. }
  exists w'. split; [exact Hloop|]. split; [exact Hruns|].
  split; [exact Htrace|].
  intros lv m. rewrite Htrace, drop_app_length.
  destruct (_ && _); intros Hin;
    repeat (apply elem_of_cons in Hin as [Hin|Hin]; [discriminate|]);
    by apply elem_of_nil in Hin.
Qed.

(** X8: a duration mismatch when ['-t'] is the last token of [input_args]
    raises [IndexError] out of the call; the handler does not fall back to
    [output_args], whatever it holds, because only [ValueError] is caught. *)
Theorem ffmpeg_mismatch_with_dangling_token_raises (attempt : Z)
    (rest : list Z) (l : locals) (w w1 : world (Env := Env))
    (target actual : float) (pre : list string) :
  try_in l w =
    (Return (Some (FfmpegIncorrectDurationError target actual)), w1) →
  input_args l = pre ++ ["-t"] →
  "-t" ∉ pre →
  ∃ w',
    loop_in (attempt :: rest) l w = (Raise IndexError, w') ∧
    runs (trace w') = runs (trace w) ++ [args_in l].
Proof.
  intros Hbody Hia Hpre.
  destruct (ffmpeg_mismatch_raises attempt rest l w w1 target actual
              IndexError Hbody) as (w' & Hloop & Hruns & _).
  { unfold adjust_duration. by rewrite Hia, bump_duration_last. }
  exists w'. by split.
Qed.

End RetryLoopEffects.

Section FfmpegEffects.

Context `{PyNum} {Env : Type}.

Variable run_command :
  list string → gset string → Env → run_result * gset string * Env.
Variable HTTP_ERR_PATTERN_match : string → bool.
Variables (ffmpeg_path : string) (inp : input_path)
  (output_path log_level : string) (num_retries : Z)
  (validation_callback : option (callback (Env := Env)))
  (ia oa : option (list string)).

Abbreviation call :=
  (ffmpeg run_command HTTP_ERR_PATTERN_match ffmpeg_path inp output_path
     ia oa log_level num_retries validation_callback).

Lemma ffmpeg_effects (w : world (Env := Env)) :
  ∃ r w' rs m,
    call w = (r, w') ∧
    runs (trace w') = runs (trace w) ++ rs ∧
    (length rs ≤ Z.to_nat num_retries)%nat ∧
    Forall (same_shape ffmpeg_path (default [] (expand_inputs inp))
              output_path log_level
              (Locals (default [] ia) (default [] oa) None)) rs ∧
    removals (trace w') = removals (trace w) ++ replicate m output_path ∧
    (m ≤ Z.to_nat num_retries)%nat ∧
    (r = Return () ∨ r = Raise ValueError ∨ r = Raise IndexError).
Proof.
  unfold ffmpeg. destruct (expand_inputs inp) as [inputs|].
  - destruct (ffmpeg_for_effects run_command HTTP_ERR_PATTERN_match
                ffmpeg_path inp inputs output_path log_level num_retries
                validation_callback (range num_retries)
                (Locals (default [] ia) (default [] oa) None) w)
      as (r & w' & rs & m & Hloop & Hr & Hlen & Hsh & Hrm & Hm & Hres).
    rewrite length_range in Hlen, Hm.
    unfold bind. rewrite Hloop.
    destruct Hres as [[l' ->] | [-> | ->]].
    + exists (Return ()), w', rs, m. repeat split; auto.
    + exists (Raise ValueError), w', rs, m. repeat split; auto.
    + exists (Raise IndexError), w', rs, m. repeat split; auto.
  - exists (Raise ValueError), w, [], 0%nat. cbn.
    rewrite !app_nil_r. repeat split; auto; lia.
Qed.

(** X9: whatever the tool and the validation do, a call of [ffmpeg] runs the
    tool at most [num_retries] times (never when [num_retries] is not
    positive), whether it returns or raises. *)
Theorem ffmpeg_runs_at_most_num_retries (w : world (Env := Env)) :
  Z.of_nat (length (runs (trace (call w).2))) ≤
  Z.of_nat (length (runs (trace w))) + Z.max 0 num_retries.
Proof.
  destruct (ffmpeg_effects w) as (r & w' & rs & m & Hc & Hr & Hlen & _).
  rewrite Hc. cbn [snd]. rewrite Hr, length_app. lia.
Qed.

(** X10: the only path a call of [ffmpeg] ever deletes is its own
    [output_path], at most once per attempt; no other file is removed by the
    call, whatever the tool and the validation do. *)
Theorem ffmpeg_deletes_only_output_path (w : world (Env := Env)) :
  ∃ m, removals (trace (call w).2) =
       removals (trace w) ++ replicate m output_path ∧
       (m ≤ Z.to_nat num_retries)%nat.
Proof.
  destruct (ffmpeg_effects w)
    as (r & w' & rs & m & Hc & _ & _ & _ & Hrm & Hm & _).
  exists m. rewrite Hc. split; assumption.
Qed.

(** X11: a call of [ffmpeg] either returns or raises [ValueError] or
    [IndexError]; the errors of the tool and of the validation never leave
    it: a [SubprocessError], an [FfmpegValidationError] and an
    [FfmpegIncorrectDurationError] are all absorbed by the loop. *)
Theorem ffmpeg_raises_only_value_or_index_error (w : world (Env := Env)) :
  (call w).1 = Return () ∨ (call w).1 = Raise ValueError ∨
  (call w).1 = Raise IndexError.
Proof.
  destruct (ffmpeg_effects w)
    as (r & w' & rs & m & Hc & _ & _ & _ & _ & _ & Hres).
  rewrite Hc. exact Hres.
Qed.

(** X12: every tool run of a call has the same frame: the tool path, the
    input arguments, the ['-i'] inputs, the output arguments, the output path
    and ['-loglevel'] with its level, in this order.  Retries may rewrite
    tokens of the two argument lists but never change their lengths, the
    inputs, the output path or the log level. *)
Theorem ffmpeg_runs_keep_their_frame (w : world (Env := Env)) :
  ∃ rs,
    runs (trace (call w).2) = runs (trace w) ++ rs ∧
    Forall (same_shape ffmpeg_path (default [] (expand_inputs inp))
              output_path log_level
              (Locals (default [] ia) (default [] oa) None)) rs.
Proof.
  destruct (ffmpeg_effects w) as (r & w' & rs & m & Hc & Hr & _ & Hsh & _).
  exists rs. rewrite Hc. split; assumption.
Qed.

End FfmpegEffects.

(** ** [download_yt_video] and [segment_mp_worker], further *)

Section SegmentEffects.

Context `{PyNum} {Env : Type}.

Variable run_command :
  list string → gset string → Env → run_result * gset string * Env.
Variable HTTP_ERR_PATTERN_match : string → bool.
Variable get_media_filename : string → float → float → string.
Variable getFormats_url : string → Env → option string.

Variables (ytid : string) (ts_start ts_end : float)
  (output_dir ffmpeg_path ffprobe_path : string)
  (audio_codec audio_format : string) (audio_sample_rate audio_bit_depth : Z)
  (video_codec video_format video_mode : string)
  (video_frame_rate num_retries : Z).

Abbreviation name_of := (get_media_filename ytid ts_start ts_end).
Abbreviation muxed_path :=
  (filepath output_dir "video_audio" name_of video_format).
Abbreviation video_path :=
  (filepath output_dir "video" name_of video_format).
Abbreviation audio_path :=
  (filepath output_dir "audio" name_of audio_format).
Abbreviation download_segment :=
  (download_yt_video run_command HTTP_ERR_PATTERN_match get_media_filename
     getFormats_url ytid ts_start ts_end output_dir ffmpeg_path ffprobe_path
     audio_codec audio_format audio_sample_rate audio_bit_depth video_codec
     video_format video_mode video_frame_rate num_retries).

(** X13: when the identifier is well formed but its streaming url cannot be
    resolved, [download_yt_video] raises before any tool run; by then the
    cleanup has happened: each of the three output paths of the request that
    existed has been deleted. *)
Theorem download_yt_video_unresolved_url (w : world (Env := Env)) :
  String.length ytid = 11%nat →
  getFormats_url ytid (env w) = None →
  ∃ removed : list string,
    download_segment w =
    (Raise MediaInfoError,
     World (fs w ∖ {[muxed_path; video_path; audio_path]}) (env w)
       (trace w ++ (ERemove <$> removed) ++ [EGetFormats ytid])) ∧
    (∀ p, p ∈ removed ↔ p ∈ [muxed_path; video_path; audio_path] ∧ p ∈ fs w) ∧
    runs ((ERemove <$> removed) ++ [EGetFormats ytid]) = [].
Proof.
  intros Hlen Hurl.
  destruct (cleanup_spec muxed_path video_path audio_path w)
    as (removed & Hclean & Hrem).
  exists removed. split; [|split; [exact Hrem|]].
  - unfold download_yt_video. rewrite Hclean.
    apply Nat.eqb_eq in Hlen. rewrite Hlen. cbn [negb].
    unfold bind at 1. unfold get_url. cbn [fs env trace]. rewrite Hurl.
    by rewrite <- app_assoc.
  - rewrite runs_app, runs_removes. reflexivity.
Qed.

(** An [ffmpeg] call deletes its own output path only. *)
Lemma ffmpeg_removals (inp : input_path) (out : string)
    (ia oa : option (list string)) (w : world (Env := Env)) :
  ∃ r w' m,
    ffmpeg run_command HTTP_ERR_PATTERN_match ffmpeg_path inp out ia oa
      "error" num_retries None w = (r, w') ∧
    removals (trace w') = removals (trace w) ++ replicate m out.
Proof.
  destruct (ffmpeg_effects run_command HTTP_ERR_PATTERN_match ffmpeg_path inp
              out "error" num_retries None ia oa w)
    as (r & w' & rs & m & Hc & _ & _ & _ & Hrm & _).
  by exists r, w', m.
Qed.

Lemma removals_removes (l : list string) :
  removals (ERemove <$> l) = l.
Proof.
  induction l as [|p l IH]; [reflexivity|]. cbn. f_equal. exact IH.
Qed.

(** X14: whatever its arguments and whatever the tool does, the only paths
    [download_yt_video] deletes are the three output paths of the request:
    the muxed file, the video file and the audio file. *)
Theorem download_yt_video_deletes_only_its_outputs (w : world (Env := Env)) :
  ∃ ps : list string,
    removals (trace (download_segment w).2) = removals (trace w) ++ ps ∧
    ∀ p, p ∈ ps → p ∈ [muxed_path; video_path; audio_path].
Proof.
  destruct (cleanup_spec muxed_path video_path audio_path w)
    as (removed & Hclean & Hrem).
  assert (Hin : ∀ p, p ∈ removed →
                     p ∈ [muxed_path; video_path; audio_path]).
  { intros p Hp. by apply Hrem in Hp as [Hp _]. }
  unfold download_yt_video. rewrite Hclean.
  destruct (negb (String.length ytid =? 11)%nat).
  { exists removed. split; [|exact Hin].
    unfold bind, emit, ret. cbn [snd trace fs env].
    rewrite !removals_app, removals_removes. cbn. by rewrite app_nil_r. }
  unfold bind at 1. unfold get_url. cbn [fs env trace].
  destruct (getFormats_url ytid (env w)) as [url|].
  2:{ exists removed. split; [|exact Hin]. cbn [snd trace].
      rewrite !removals_app, removals_removes. cbn. by rewrite app_nil_r. }
  match goal with
  | |- context [bind (ffmpeg _ _ _ ?i ?o ?a ?b _ _ None) _ ?w0] =>
      destruct (ffmpeg_removals i o a b w0) as (r1 & w1 & m1 & Hc1 & Hr1)
  end.
  unfold bind at 1. rewrite Hc1.
  cbn [trace] in Hr1. rewrite !removals_app, removals_removes in Hr1.
  cbn in Hr1. rewrite app_nil_r in Hr1.
  assert (Hrep : ∀ m q, q ∈ [muxed_path; video_path; audio_path] →
                   ∀ p, p ∈ replicate m q →
                        p ∈ [muxed_path; video_path; audio_path]).
  { intros m q Hq p Hp. apply elem_of_replicate in Hp as [-> _]. exact Hq. }
  destruct r1 as [[]|e1].
  2:{ exists (removed ++ replicate m1 audio_path). cbn [snd].
      rewrite Hr1, <- app_assoc. split; [reflexivity|].
      intros p Hp. apply elem_of_app in Hp as [Hp|Hp]; [by apply Hin|].
      eapply Hrep; [|exact Hp]. set_solver. }
  destruct (negb (bool_decide (video_codec = "h264"))).
  { exists (removed ++ replicate m1 audio_path). cbn [snd raise].
    rewrite Hr1, <- app_assoc. split; [reflexivity|].
    intros p Hp. apply elem_of_app in Hp as [Hp|Hp]; [by apply Hin|].
    eapply Hrep; [|exact Hp]. set_solver. }
  match goal with
  | |- context [bind (ffmpeg _ _ _ ?i ?o ?a ?b _ _ None) _ w1] =>
      destruct (ffmpeg_removals i o a b w1) as (r2 & w2 & m2 & Hc2 & Hr2)
  end.
  unfold bind at 1. rewrite Hc2.
  destruct r2 as [[]|e2].
  2:{ exists (removed ++ replicate m1 audio_path ++ replicate m2 video_path).
      cbn [snd]. rewrite Hr2, Hr1, <- !app_assoc. split; [reflexivity|].
      intros p Hp. rewrite !elem_of_app in Hp.
      destruct Hp as [Hp|[Hp|Hp]]; [by apply Hin| |];
        (eapply Hrep; [|exact Hp]); set_solver. }
  match goal with
  | |- context [bind (ffmpeg _ _ _ ?i ?o ?a ?b _ _ None) _ w2] =>
      destruct (ffmpeg_removals i o a b w2) as (r3 & w3 & m3 & Hc3 & Hr3)
  end.
  unfold bind at 1. rewrite Hc3.
  exists (removed ++ replicate m1 audio_path ++ replicate m2 video_path ++
          replicate m3 muxed_path).
  split.
  - destruct r3 as [[]|e3]; cbn [snd trace bind log emit ret];
      unfold bind, log, emit, ret; cbn [snd trace];
      rewrite ?removals_app; cbn; rewrite ?app_nil_r;
      rewrite Hr3, Hr2, Hr1, <- !app_assoc; reflexivity.
  - intros p Hp. rewrite !elem_of_app in Hp.
    destruct Hp as [Hp|[Hp|[Hp|Hp]]]; [by apply Hin| | |];
      (eapply Hrep; [|exact Hp]); set_solver.
Qed.

End SegmentEffects.

Section SegmentSuccess.

Context `{PyNum} {Env : Type}.

Variable run_command :
  list string → gset string → Env → run_result * gset string * Env.
Variable HTTP_ERR_PATTERN_match : string → bool.
Variable get_media_filename : string → float → float → string.
Variable getFormats_url : string → Env → option string.

Lemma range_positive (n : Z) :
  0 < n → ∃ rest, range n = 0 :: rest.
Proof.
  intros Hn. unfold range.
  destruct (Z.to_nat n) as [|k] eqn:E; [lia|].
  by eexists.
Qed.

(** With a tool that succeeds and no validation, an [ffmpeg] call is one
    run. *)
Lemma ffmpeg_one_run (ffmpeg_path : string) (inp : input_path)
    (inputs : list string) (out : string) (ia oa : list string)
    (num_retries : Z) (w : world (Env := Env)) :
  always_succeeds run_command →
  0 < num_retries →
  expand_inputs inp = Some inputs →
  ∃ f' e',
    ffmpeg run_command HTTP_ERR_PATTERN_match ffmpeg_path inp out
      (Some ia) (Some oa) "error" num_retries None w =
    (Return (),
     World f' e'
       (trace w ++
        [ERun (ffmpeg_args ffmpeg_path inputs out "error"
                 (Locals ia oa None))])).
Proof.
  intros Hok Hn Hinp.
  destruct (range_positive _ Hn) as [rest Hrange].
  destruct (Hok (ffmpeg_args ffmpeg_path inputs out "error"
                   (Locals ia oa None)) (fs w) (env w))
    as (f' & e' & Hrun).
  assert (Hbody :
    try_body run_command ffmpeg_path inputs out "error" None
      (Locals ia oa None) w =
    (Return None,
     World f' e'
       (trace w ++
        [ERun (ffmpeg_args ffmpeg_path inputs out "error"
                 (Locals ia oa None))]))).
  { unfold try_body. cbn [fs env trace]. by rewrite Hrun. }
  exists f', e'. unfold ffmpeg. rewrite Hinp, Hrange. cbn [default].
  unfold bind at 1.
  by rewrite (ffmpeg_attempt_success _ _ _ _ _ _ _ _ _ _ _ _ _ _ Hbody).
Qed.

Variables (ytid : string) (ts_start ts_end : float)
  (output_dir ffmpeg_path ffprobe_path : string)
  (audio_codec audio_format : string) (audio_sample_rate audio_bit_depth : Z)
  (video_format video_mode : string)
  (video_frame_rate num_retries : Z).

Abbreviation name_ok := (get_media_filename ytid ts_start ts_end).
Abbreviation muxed_ok :=
  (filepath output_dir "video_audio" name_ok video_format).
Abbreviation video_ok := (filepath output_dir "video" name_ok video_format).
Abbreviation audio_ok := (filepath output_dir "audio" name_ok audio_format).

(** X15: for a well-formed identifier whose url resolves, the [h264] codec,
    a positive [num_retries] and a tool that succeeds on every run,
    [download_yt_video] does, in this order: the deletion of the outputs
    that exist, the url lookup, one audio extraction, one video extraction,
    one mux of the video and audio paths, the INFO line; it returns the
    video path and the audio path. *)
Theorem download_yt_video_success_sequence (url : string)
    (w : world (Env := Env)) :
  always_succeeds run_command →
  0 < num_retries →
  String.length ytid = 11%nat →
  getFormats_url ytid (env w) = Some url →
  ∃ w' removed,
    download_yt_video run_command HTTP_ERR_PATTERN_match get_media_filename
      getFormats_url ytid ts_start ts_end output_dir ffmpeg_path ffprobe_path
      audio_codec audio_format audio_sample_rate audio_bit_depth "h264"
      video_format video_mode video_frame_rate num_retries w =
    (Return (Some video_ok, Some audio_ok), w') ∧
    trace w' =
      trace w ++ (ERemove <$> removed) ++
      [EGetFormats ytid;
       ERun (audio_args ffmpeg_path url audio_ok ts_start audio_codec
               audio_format audio_sample_rate audio_bit_depth);
       ERun (video_args ffmpeg_path url video_ok ts_start "h264"
               video_format video_frame_rate);
       ERun (mux_args ffmpeg_path video_ok audio_ok muxed_ok "h264"
               video_format video_frame_rate audio_sample_rate);
       ELog INFO (MsgDownloaded ytid ts_start ts_end)] ∧
    (∀ p, p ∈ removed ↔ p ∈ [muxed_ok; video_ok; audio_ok] ∧ p ∈ fs w).
Proof.
  intros Hok Hn Hlen Hurl.
  destruct (cleanup_spec muxed_ok video_ok audio_ok w)
    as (removed & Hclean & Hrem).
  unfold download_yt_video. rewrite Hclean.
  apply Nat.eqb_eq in Hlen. rewrite Hlen. cbn [negb].
  unfold bind at 1. unfold get_url. cbn [fs env trace]. rewrite Hurl.
  match goal with
  | |- context [bind (ffmpeg _ _ ?fp ?i ?o (Some ?a) (Some ?b) _ _ None) _
                  ?w0] =>
      destruct (ffmpeg_one_run fp i ["-i"; url] o a b num_retries w0
                  Hok Hn eq_refl) as (f1 & e1 & Hc1)
  end.
  unfold bind at 1. rewrite Hc1. cbn [negb bool_decide].
  rewrite bool_decide_eq_true_2 by reflexivity. cbn [negb].
  match goal with
  | |- context [bind (ffmpeg _ _ ?fp ?i ?o (Some ?a) (Some ?b) _ _ None) _
                  ?w0] =>
      destruct (ffmpeg_one_run fp i ["-i"; url] o a b num_retries w0
                  Hok Hn eq_refl) as (f2 & e2 & Hc2)
  end.
  unfold bind at 1. rewrite Hc2.
  match goal with
  | |- context [bind (ffmpeg _ _ ?fp ?i ?o (Some ?a) (Some ?b) _ _ None) _
                  ?w0] =>
      destruct (ffmpeg_one_run fp i ["-i"; video_ok; "-i"; audio_ok] o a b
                  num_retries w0 Hok Hn eq_refl) as (f3 & e3 & Hc3)
  end.
  unfold bind at 1. rewrite Hc3.
  eexists _, removed. split; [reflexivity|]. split; [|exact Hrem].
  cbn [trace]. rewrite <- !app_assoc. reflexivity.
Qed.

(** X16: [segment_mp_worker] never raises: whatever [download_yt_video]
    does, an exception it raises is caught at the job boundary and logged at
    ERROR level with the identifier, and the worker returns normally. *)
Theorem segment_mp_worker_contains_errors (data_dir : string) (cfg : kwargs)
    (w : world (Env := Env)) :
  let w0 := World (fs w) (env w)
              (trace w ++ [ELog INFO (MsgAttempting ytid ts_start ts_end)]) in
  let r := download_yt_video_kw run_command HTTP_ERR_PATTERN_match
             get_media_filename getFormats_url ytid ts_start ts_end data_dir
             ffmpeg_path ffprobe_path cfg w0 in
  ∃ w',
    segment_mp_worker run_command HTTP_ERR_PATTERN_match get_media_filename
      getFormats_url ytid ts_start ts_end data_dir ffmpeg_path ffprobe_path
      cfg w = (Return (), w') ∧
    fs w' = fs r.2 ∧ env w' = env r.2 ∧
    match r.1 with
    | Return _ => trace w' = trace r.2
    | Raise e => trace w' = trace r.2 ++ [ELog ERROR (MsgWorkerError ytid e)]
    end.
Proof.
  intros w0 r. unfold segment_mp_worker, bind at 1, log, emit.
  fold w0. unfold try_except, bind at 1. fold r.
  destruct r as [[v|e] w1]; cbn [fst snd].
  - exists w1. repeat split.
  - eexists. split; [reflexivity|]. cbn [fs env trace]. repeat split.
Qed.

End SegmentSuccess.

(** * The theorems at concrete inputs *)

Section Instances.

Import Sample.
#[local] Existing Instance Decimal.num.

(** A run of the model: a target of 10 s, outputs of 9.5 s and then 9.8 s;
    the three attempts are made with [-t 10], [-t 10.5] and [-t 10.7]. *)
Example sample_run_compounds :
  sample_ffmpeg 3 (Some Scripted.validate) (start ∅ two_mismatches) =
  (Return (),
   World {["out.wav"]} ([], [])
     [ERun (retry_args "10"); ERemove "out.wav";
      ELog WARNING (MsgDurationRetrying (mismatch 10000 9500));
      ERun (retry_args "10.5"); ERemove "out.wav";
      ELog WARNING (MsgDurationRetrying (mismatch 10000 9800));
      ERun (retry_args "10.7")]).
Proof. reflexivity. Qed.

Lemma ffmpeg_duration_adjust_cumulative_witness :
  ∃ l2 w2 t,
    sample_loop 3 (Some Scripted.validate) [0; 1; 2] retry_locals
      (start ∅ two_mismatches) =
    sample_loop 3 (Some Scripted.validate) [2] l2 w2 ∧
    output_args l2 = ["-t"; "10.7"] ∧
    runs (trace w2) = [retry_args "10"; retry_args "10.5"] ∧
    trace (sample_attempt 3 (Some Scripted.validate) 2 l2 w2).2 =
      trace w2 ++ ERun (retry_args "10.7") :: t.
Proof.
  destruct (ffmpeg_duration_adjust_cumulative Scripted.run_command
              Scripted.http_err_match "ffmpeg" (InStr "in.mp4")
              ["-i"; "in.mp4"] "out.wav" "error" 3 (Some Scripted.validate)
              0 1 [2] retry_locals (start ∅ two_mismatches)
              after_first_run after_second_run
              OutputArgs [] [] "10" 10000 10000 9500 10000 9800)
    as (l1 & w1 & l2 & w2 & _ & _ & _ & Hat2 & _ & Hruns & Hloop & Hnext).
  - split; [apply not_elem_of_nil|]. split; [reflexivity|].
    intros _. cbn. apply not_elem_of_cons. split; [discriminate|].
    apply not_elem_of_nil.
  - reflexivity.
  - reflexivity.
  - reflexivity.
  - intros l w Heq.
    assert (Hfirst :
      sample_attempt 3 (Some Scripted.validate) 0 retry_locals
        (start ∅ two_mismatches) =
      (Return (Continue,
               Locals ["-n"] ["-t"; "10.5"] (Some (mismatch 10000 9500))),
       after_first_attempt))
      by reflexivity.
    unfold sample_attempt in Hfirst. rewrite Hfirst in Heq.
    injection Heq as <- <-. reflexivity.
  - destruct (Hnext 2) as [t Ht].
    exists l2, w2, t.
    split; [exact Hloop|].
    split; [exact (proj1 (proj2 Hat2))|].
    split; [exact Hruns|exact Ht].
Defined.

Lemma ffmpeg_http_errors_exhaust_retries_witness :
  ∃ w',
    sample_ffmpeg 3 None (start ∅ three_failures) = (Return (), w') ∧
    trace w' =
      [ERun (retry_args "10"); ERun (retry_args "10"); ERun (retry_args "10");
       ELog ERROR
         (MsgMaxRetries 3 (InStr "in.mp4")
            (Some (SubprocessError "Server returned 504 Gateway Timeout")))] ∧
    removals (trace w') = [].
Proof.
  destruct (ffmpeg_http_errors_exhaust_retries Scripted.run_command
              Scripted.http_err_match "ffmpeg" (InStr "in.mp4")
              ["-i"; "in.mp4"] "out.wav" "error" 3 None
              (Some ["-n"]) (Some ["-t"; "10"])
              (start ∅ three_failures) three_http_errors eq_refl eq_refl)
    as (w' & Hff & Htr & _ & Hrm).
  - do 2 eexists. split; [reflexivity|]. split; [reflexivity|].
    split; [reflexivity|].
    do 2 eexists. split; [reflexivity|]. split; [reflexivity|].
    split; [reflexivity|].
    do 2 eexists. split; [reflexivity|]. split; [reflexivity|].
    split; [reflexivity|]. exact I.
  - exists w'. split; [exact Hff|]. split; [exact Htr|exact Hrm].
Defined.

Lemma ffmpeg_zero_retries_witness :
  sample_ffmpeg 0 None (start {["out.wav"]} ([], [])) =
  (Return (),
   World {["out.wav"]} ([], [])
     [ELog ERROR (MsgMaxRetries 0 (InStr "in.mp4") None)]).
Proof.
  refine (ffmpeg_zero_retries Scripted.run_command Scripted.http_err_match
            "ffmpeg" (InStr "in.mp4") "out.wav" "error" None
            (Some ["-n"]) (Some ["-t"; "10"]) (start {["out.wav"]} ([], []))
            _).
  discriminate.
Defined.

Lemma ffmpeg_already_exists_stops_witness :
  sample_loop 3 None [0; 1; 2] retry_locals
    (start {["out.wav"]}
       ([(RunFailed "File 'out.wav' already exists. Exiting.", false)], [])) =
  (Return (Locals ["-n"] ["-t"; "10"]
             (Some (SubprocessError
                      "File 'out.wav' already exists. Exiting."))),
   World {["out.wav"]} ([], [])
     [ERun (retry_args "10"); ELog INFO (MsgAlreadyExists "out.wav")]).
Proof.
  refine (ffmpeg_already_exists_stops Scripted.run_command
            Scripted.http_err_match "ffmpeg" (InStr "in.mp4") ["-i"; "in.mp4"]
            "out.wav" "error" 3 None 0 [1; 2] retry_locals
            (start {["out.wav"]}
               ([(RunFailed "File 'out.wav' already exists. Exiting.", false)],
                []))
            "File 'out.wav' already exists. Exiting." {["out.wav"]} ([], [])
            _ _).
  - reflexivity.
  - left. reflexivity.
Defined.

Lemma ffmpeg_http_error_retries_in_place_witness :
  sample_attempt 2 None 0 retry_locals
    (start ∅ ([(RunFailed http_503, true)], [])) =
  (Return (Continue,
           Locals ["-n"] ["-t"; "10"] (Some (SubprocessError http_503))),
   World {["out.wav"]} ([], []) [ERun (retry_args "10")]) ∧
  sample_loop 2 None [0; 1] retry_locals
    (start ∅ ([(RunFailed http_503, true)], [])) =
  sample_loop 2 None [1]
    (Locals ["-n"] ["-t"; "10"] (Some (SubprocessError http_503)))
    (World {["out.wav"]} ([], []) [ERun (retry_args "10")]).
Proof.
  refine (ffmpeg_http_error_retries_in_place Scripted.run_command
            Scripted.http_err_match "ffmpeg" (InStr "in.mp4") ["-i"; "in.mp4"]
            "out.wav" "error" 2 None 0 [1] retry_locals
            (start ∅ ([(RunFailed http_503, true)], []))
            http_503 {["out.wav"]} ([], []) _ _ _).
  - reflexivity.
  - reflexivity.
  - reflexivity.
Defined.

(** C5, counterexample: the first run fails with an HTTP 503 after writing
    part of [out.wav].  The attempt leaves the file in place, and over the
    whole call the second run is issued without any deletion in between. *)
Lemma ffmpeg_http_error_keeps_partial_output :
  sample_attempt 2 None 0 retry_locals
    (start ∅ ([(RunFailed http_503, true)], [])) =
  (Return (Continue,
           Locals ["-n"] ["-t"; "10"] (Some (SubprocessError http_503))),
   World {["out.wav"]} ([], []) [ERun (retry_args "10")]) ∧
  sample_ffmpeg 2 None (start ∅ ([(RunFailed http_503, true)], [])) =
  (Return (),
   World {["out.wav"]} ([], [])
     [ERun (retry_args "10"); ERun (retry_args "10")]).
Proof. split; reflexivity. Qed.

(** C4, counterexample: the identifier ["short"] has five characters and
    the audio file of the request exists; after the call the file is gone. *)
Lemma download_yt_video_malformed_id_deletes :
  sample_download "short" "h264" 1
    (start {["/data/audio/short_65.0_75.0.wav"; "/data/keep.txt"]} ([], [])) =
  (Return (None, None),
   World {["/data/keep.txt"]} ([], [])
     [ERemove "/data/audio/short_65.0_75.0.wav"; EPrint "short"]).
Proof. reflexivity. Qed.

Lemma download_yt_video_malformed_id_witness :
  ∃ removed,
    sample_download "short" "h264" 1
      (start {["/data/audio/short_65.0_75.0.wav"; "/data/keep.txt"]}
         ([], [])) =
    (Return (None, None),
     World ({["/data/audio/short_65.0_75.0.wav"; "/data/keep.txt"]} ∖
            {["/data/video_audio/short_65.0_75.0.mp4";
              "/data/video/short_65.0_75.0.mp4";
              "/data/audio/short_65.0_75.0.wav"]})
       ([], []) ((ERemove <$> removed) ++ [EPrint "short"])) ∧
    runs ((ERemove <$> removed) ++ [EPrint "short"]) = [].
Proof.
  destruct (download_yt_video_malformed_id (H := Decimal.num)
              (Env := script) Scripted.run_command
              Scripted.http_err_match Scripted.media_filename
              Scripted.resolve "short" 65000 75000 "/data" "ffmpeg" "ffprobe"
              "pcm_s16le" "wav" 48000 16 "h264" "mp4" "bestvideo" 30 1
              (start {["/data/audio/short_65.0_75.0.wav"; "/data/keep.txt"]}
                 ([], [])))
    as (removed & Hdl & _ & Hruns).
  - discriminate.
  - exists removed. split; [exact Hdl|exact Hruns].
Defined.

(** C3, counterexample: with the codec [vp9] and a tool that succeeds, the
    audio extraction has been run, and its output written, when
    [NotImplementedError] is raised. *)
Lemma download_yt_video_unsupported_codec_after_audio :
  sample_download "abcdefghijk" "vp9" 1 (start ∅ ([], [])) =
  (Raise (NotImplementedError "vp9"),
   World {["/data/audio/abcdefghijk_65.0_75.0.wav"]} ([], [])
     [EGetFormats "abcdefghijk"; ERun (sample_audio_args "abcdefghijk")]).
Proof. reflexivity. Qed.

Lemma download_yt_video_unsupported_codec_witness :
  ∃ w' k,
    sample_download "abcdefghijk" "vp9" 1 (start ∅ ([], [])) =
    (Raise (NotImplementedError "vp9"), w') ∧
    runs (trace w') = replicate k (sample_audio_args "abcdefghijk") ∧
    (k ≤ 1)%nat ∧ (1 ≤ k)%nat.
Proof.
  destruct (download_yt_video_unsupported_codec (H := Decimal.num)
              (Env := script) Scripted.run_command
              Scripted.http_err_match Scripted.media_filename
              Scripted.resolve "abcdefghijk" 65000 75000 "/data" "ffmpeg"
              "ffprobe" "pcm_s16le" "wav" 48000 16 "vp9" "mp4" "bestvideo" 30
              1 "https://media.example/abcdefghijk" (start ∅ ([], [])))
    as (w' & k & Hdl & Hruns & Hk & Hpos).
  - reflexivity.
  - discriminate.
  - reflexivity.
  - exists w', k. split; [exact Hdl|]. split; [exact Hruns|].
    split; [exact Hk|apply Hpos; lia].
Defined.

(** C9, counterexample: a well-formed identifier, the codec [hevc] and a
    tool that fails with an HTTP 503 on both attempts of the audio
    extraction: the call raises, no mux is run and no pair is returned. *)
Lemma download_yt_video_no_mux_for_other_codec :
  sample_download "abcdefghijk" "hevc" 2
    (start ∅ ([(RunFailed http_503, false); (RunFailed http_503, false)], [])) =
  (Raise (NotImplementedError "hevc"),
   World ∅ ([], [])
     [EGetFormats "abcdefghijk";
      ERun (sample_audio_args "abcdefghijk");
      ERun (sample_audio_args "abcdefghijk");
      ELog ERROR
        (MsgMaxRetries 2 (InStr "https://media.example/abcdefghijk")
           (Some (SubprocessError http_503)))]).
Proof. reflexivity. Qed.

Lemma download_yt_video_always_muxes_witness :
  ∃ w' ka kv km,
    download_yt_video failing_tool Scripted.http_err_match
      Scripted.media_filename Scripted.resolve "abcdefghijk" 65000 75000
      "/data" "ffmpeg" "ffprobe" "pcm_s16le" "wav" 48000 16 "h264" "mp4"
      "bestvideo" 30 2 (start ∅ ([], [])) =
    (Return (Some "/data/video/abcdefghijk_65.0_75.0.mp4",
             Some "/data/audio/abcdefghijk_65.0_75.0.wav"), w') ∧
    runs (trace w') =
      replicate ka (sample_audio_args "abcdefghijk") ++
      replicate kv
        ["ffmpeg"; "-n"; "-ss"; "65.0"; "-i";
         "https://media.example/abcdefghijk"; "-t"; "10"; "-f"; "mp4";
         "-crf"; "0"; "-preset"; "medium"; "-r"; "30"; "-an"; "-vcodec";
         "h264"; "/data/video/abcdefghijk_65.0_75.0.mp4"; "-loglevel";
         "error"] ++
      replicate km
        ["ffmpeg"; "-n"; "-i"; "/data/video/abcdefghijk_65.0_75.0.mp4";
         "-i"; "/data/audio/abcdefghijk_65.0_75.0.wav"; "-f"; "mp4"; "-r";
         "30"; "-vcodec"; "h264"; "-acodec"; "aac"; "-ar"; "48000"; "-ac";
         "2"; "-strict"; "experimental";
         "/data/video_audio/abcdefghijk_65.0_75.0.mp4"; "-loglevel";
         "error"] ∧
    (1 ≤ km)%nat.
Proof.
  destruct (download_yt_video_always_muxes (H := Decimal.num)
              (Env := script) failing_tool
              Scripted.http_err_match Scripted.media_filename
              Scripted.resolve "abcdefghijk" 65000 75000 "/data" "ffmpeg"
              "ffprobe" "pcm_s16le" "wav" 48000 16 "h264" "mp4" "bestvideo" 30
              2 "https://media.example/abcdefghijk" (start ∅ ([], [])))
    as (w' & ka & kv & km & Hdl & Hruns & _ & _ & _ & Hpos).
  - reflexivity.
  - reflexivity.
  - reflexivity.
  - exists w', ka, kv, km. split; [exact Hdl|]. split; [exact Hruns|].
    apply Hpos. lia.
Defined.

(** The same request with a tool that fails on every run and with a tool
    that succeeds on every run: the two calls return the same pair. *)
Example download_yt_video_same_value_failed_or_not :
  (download_yt_video failing_tool Scripted.http_err_match
     Scripted.media_filename Scripted.resolve "abcdefghijk" 65000 75000
     "/data" "ffmpeg" "ffprobe" "pcm_s16le" "wav" 48000 16 "h264" "mp4"
     "bestvideo" 30 2 (start ∅ ([], []))).1 =
  (sample_download "abcdefghijk" "h264" 2 (start ∅ ([], []))).1.
Proof. reflexivity. Qed.

(** The loop on a row whose outputs are missing: the job is submitted with
    the start offset 0 x 3600 + 1 x 60 + 5 and the end offset ten seconds
    later. *)
Example subset_for_submits_missing :
  sample_subset_for (drop 1 meta_rows) (start ∅ ([], [])) =
  (Return (),
   World ∅ ([], [])
     [EApplyAsync (Job "abcdefghijk" 65000 75000 "/data" "ffmpeg" "ffprobe"
                     no_kwargs)]).
Proof. reflexivity. Qed.

Lemma download_subset_videos_slices_reader_witness :
  ∃ w',
    sample_download_subset (start ∅ ([], [])) = (Raise TypeError, w') ∧
    submissions (trace w') = [] ∧
    trace w' = [ELog INFO (MsgStarting "meta.csv"); EPool 4; EPoolClose;
                EPoolJoin].
Proof.
  refine (download_subset_videos_slices_reader (Env := script)
            Scripted.media_filename (λ p, p) (λ _, meta_rows) "/data" "ffmpeg"
            "ffprobe" no_kwargs "meta.csv" 4 (start ∅ ([], [])) _).
  lia.
Defined.

(** The loop on a row whose three outputs exist: the row is reported as
    skipped and no job is submitted. *)
Example subset_for_reports_downloaded :
  sample_subset_for (drop 1 meta_rows) (start downloaded_files ([], [])) =
  (Return (),
   World downloaded_files ([], [])
     [ELog INFO (MsgAlreadyDownloaded "abcdefghijk" 65000 75000)]).
Proof. reflexivity. Qed.

(** The scheduler on that file and filesystem: the row is not reported. *)
Lemma download_subset_videos_reports_no_skip_witness :
  ∃ w',
    sample_download_subset (start downloaded_files ([], [])) =
      (Raise TypeError, w') ∧
    fs w' = downloaded_files ∧
    (ELog INFO (MsgAlreadyDownloaded "abcdefghijk" 65000 75000) ∉ trace w') ∧
    (ELog INFO (MsgFinished "meta.csv") ∉ trace w').
Proof.
  destruct (download_subset_videos_reports_no_skip (Env := script)
              Scripted.media_filename (λ p, p) (λ _, meta_rows) "/data"
              "ffmpeg" "ffprobe" no_kwargs "meta.csv" 4
              (start downloaded_files ([], [])))
    as (w' & t & Hcall & Htrace & Hfs & Hskip & Hfin & _).
  - lia.
  - exists w'. split; [exact Hcall|]. split; [exact Hfs|].
    rewrite Htrace. split; [apply Hskip|apply Hfin].
Defined.

End Instances.

(** * The further properties at concrete inputs *)

Section MoreInstances.

Import Sample MoreSample.
#[local] Existing Instance Decimal.num.

Lemma not_duration_token (s : string) (l : list string) :
  "-t" ≠ s → "-t" ∉ l → "-t" ∉ s :: l.
Proof. intros Hs Hl. apply not_elem_of_cons. by split. Qed.

Lemma adjust_duration_prefers_input_args_witness :
  adjust_duration (H := Decimal.num) ["-n"; "-t"; "10"] ["-t"; "7"] 500 =
  inr (["-n"; "-t"; "10.5"], ["-t"; "7"]).
Proof.
  refine (adjust_duration_prefers_input_args (H := Decimal.num)
            ["-n"] [] ["-t"; "7"] "10" 10000 500 _ _).
  - apply not_duration_token; [discriminate|apply not_elem_of_nil].
  - reflexivity.
Defined.

Lemma adjust_duration_falls_back_on_bad_value_witness :
  adjust_duration (H := Decimal.num) ["-t"; "auto"] ["-vn"; "-t"; "10"] 500 =
  inr (["-t"; "auto"], ["-vn"; "-t"; "10.5"]).
Proof.
  refine (adjust_duration_falls_back_on_bad_value (H := Decimal.num)
            [] [] ["-vn"] [] "auto" "10" 10000 500 _ _ _ _).
  - apply not_elem_of_nil.
  - reflexivity.
  - apply not_duration_token; [discriminate|apply not_elem_of_nil].
  - reflexivity.
Defined.

Lemma adjust_duration_rewrites_one_token_witness :
  length ["-n"] = length ["-n"] ∧
  length ["-t"; "10.5"] = length ["-t"; "10"] ∧
  ((["-t"; "10.5"] = ["-t"; "10"] ∧
    ∃ i v x, PyStr.index "-t" ["-n"] = Some i ∧
             ["-n"] !! S i = Some v ∧
             float_of_str (PyNum := Decimal.num) v = Some x ∧
             ["-n"] !! S i = Some (str_of_float (fadd x 500)) ∧
             ∀ j, j ≠ S i → ["-n"] !! j = ["-n"] !! j) ∨
   (["-n"] = ["-n"] ∧
    ∃ i v x, PyStr.index "-t" ["-t"; "10"] = Some i ∧
             ["-t"; "10"] !! S i = Some v ∧
             float_of_str (PyNum := Decimal.num) v = Some x ∧
             ["-t"; "10.5"] !! S i = Some (str_of_float (fadd x 500)) ∧
             ∀ j, j ≠ S i → ["-t"; "10.5"] !! j = ["-t"; "10"] !! j)).
Proof.
  refine (adjust_duration_rewrites_one_token (H := Decimal.num)
            ["-n"] ["-t"; "10"] ["-n"] ["-t"; "10.5"] 500 _).
  reflexivity.
Defined.

Lemma ffmpeg_success_stops_witness :
  sample_loop 3 None [0; 1; 2] retry_locals (start ∅ ([], [])) =
  (Return retry_locals,
   World {["out.wav"]} ([], []) [ERun (retry_args "10")]) ∧
  trace (World (Env := script) {["out.wav"]} ([], [])
           [ERun (retry_args "10")]) =
  trace (start ∅ ([], [])) ++ [ERun (retry_args "10")].
Proof.
  refine (ffmpeg_success_stops Scripted.run_command Scripted.http_err_match
            "ffmpeg" (InStr "in.mp4") ["-i"; "in.mp4"] "out.wav" "error" 3
            None 0 [1; 2] retry_locals (start ∅ ([], []))
            (World {["out.wav"]} ([], []) [ERun (retry_args "10")]) _).
  reflexivity.
Defined.

Lemma ffmpeg_other_failure_deletes_output_witness :
  sample_attempt 2 None 1 retry_locals (start ∅ one_conversion_failure) =
  (Return (Continue,
           Locals ["-n"] ["-t"; "10"]
             (Some (SubprocessError "Conversion failed!"))),
   World ({["out.wav"]} ∖ {["out.wav"]}) ([], [])
     ([ERun (retry_args "10");
       ELog ERROR (MsgRetrying (SubprocessError "Conversion failed!"));
       ERemove "out.wav"])) ∧
  "out.wav" ∉ ({["out.wav"]} ∖ {["out.wav"]} : gset string).
Proof.
  destruct (ffmpeg_other_failure_deletes_output Scripted.run_command
              Scripted.http_err_match "ffmpeg" (InStr "in.mp4")
              ["-i"; "in.mp4"] "out.wav" "error" 2 None 1 []
              retry_locals (start ∅ one_conversion_failure)
              "Conversion failed!" {["out.wav"]} ([], []))
    as (Hatt & _ & Hgone).
  - reflexivity.
  - reflexivity.
  - reflexivity.
  - split; [exact Hatt|exact Hgone].
Defined.

Lemma ffmpeg_validation_failure_keeps_last_output_witness :
  ∃ w',
    sample_attempt 1 (Some Scripted.validate) 0 retry_locals
      (start ∅ one_rejection) =
    (Return (Continue,
             Locals ["-n"] ["-t"; "10"]
               (Some (FfmpegValidationError "no audio stream"))), w') ∧
    fs w' = {["out.wav"]} ∧ removals (trace w') = [].
Proof.
  destruct (ffmpeg_validation_failure_keeps_last_output Scripted.run_command
              Scripted.http_err_match "ffmpeg" ["-i"; "in.mp4"] "out.wav"
              "error" 1 (Some Scripted.validate) 0 retry_locals
              (start ∅ one_rejection)
              (World {["out.wav"]} ([], []) [ERun (retry_args "10")])
              "no audio stream")
    as (w' & Hatt & _ & _ & Hlast).
  - reflexivity.
  - exists w'. split; [exact Hatt|]. apply Hlast. lia.
Defined.

Lemma ffmpeg_mismatch_without_duration_token_raises_witness :
  ∃ w',
    sample_loop 3 (Some Scripted.validate) [0; 1; 2] no_duration
      (start ∅ one_mismatch) = (Raise ValueError, w') ∧
    trace w' =
      [ERun ["ffmpeg"; "-n"; "-i"; "in.mp4"; "-vn"; "out.wav"; "-loglevel";
             "error"];
       ERemove "out.wav"].
Proof.
  destruct (ffmpeg_mismatch_without_duration_token_raises
              Scripted.run_command
              Scripted.http_err_match "ffmpeg" (InStr "in.mp4")
              ["-i"; "in.mp4"] "out.wav" "error" 3 (Some Scripted.validate)
              0 [1; 2] no_duration (start ∅ one_mismatch)
              (World {["out.wav"]} ([], [])
                 [ERun ["ffmpeg"; "-n"; "-i"; "in.mp4"; "-vn"; "out.wav";
                        "-loglevel"; "error"]])
              10000 9500) as (w' & Hloop & _ & Htrace & _).
  - reflexivity.
  - apply not_duration_token; [discriminate|apply not_elem_of_nil].
  - apply not_duration_token; [discriminate|apply not_elem_of_nil].
  - exists w'. split; [exact Hloop|]. rewrite Htrace. reflexivity.
Defined.

Lemma ffmpeg_mismatch_with_dangling_token_raises_witness :
  ∃ w',
    sample_loop 3 (Some Scripted.validate) [0; 1; 2] dangling_duration
      (start ∅ one_mismatch) = (Raise IndexError, w') ∧
    runs (trace w') =
      [["ffmpeg"; "-n"; "-t"; "-i"; "in.mp4"; "-t"; "10"; "out.wav";
        "-loglevel"; "error"]].
Proof.
  refine (ffmpeg_mismatch_with_dangling_token_raises Scripted.run_command
            Scripted.http_err_match "ffmpeg" (InStr "in.mp4")
            ["-i"; "in.mp4"] "out.wav" "error" 3 (Some Scripted.validate)
            0 [1; 2] dangling_duration (start ∅ one_mismatch)
            (World {["out.wav"]} ([], [])
               [ERun ["ffmpeg"; "-n"; "-t"; "-i"; "in.mp4"; "-t"; "10";
                      "out.wav"; "-loglevel"; "error"]])
            10000 9500 ["-n"] _ _ _).
  - reflexivity.
  - reflexivity.
  - apply not_duration_token; [discriminate|apply not_elem_of_nil].
Defined.

Lemma download_yt_video_unresolved_url_witness :
  ∃ removed,
    sample_download "unavailable" "h264" 2
      (start {["/data/video/unavailable_65.0_75.0.mp4"]} ([], [])) =
    (Raise MediaInfoError,
     World ({["/data/video/unavailable_65.0_75.0.mp4"]} ∖
            {["/data/video_audio/unavailable_65.0_75.0.mp4";
              "/data/video/unavailable_65.0_75.0.mp4";
              "/data/audio/unavailable_65.0_75.0.wav"]})
       ([], []) ((ERemove <$> removed) ++ [EGetFormats "unavailable"])) ∧
    runs ((ERemove <$> removed) ++ [EGetFormats "unavailable"]) = [].
Proof.
  destruct (download_yt_video_unresolved_url (H := Decimal.num)
              (Env := script) Scripted.run_command Scripted.http_err_match
              Scripted.media_filename Scripted.resolve "unavailable" 65000
              75000 "/data" "ffmpeg" "ffprobe" "pcm_s16le" "wav" 48000 16
              "h264" "mp4" "bestvideo" 30 2
              (start {["/data/video/unavailable_65.0_75.0.mp4"]} ([], [])))
    as (removed & Hdl & _ & Hruns).
  - reflexivity.
  - reflexivity.
  - exists removed. split; [exact Hdl|exact Hruns].
Defined.

Lemma ok_tool_always_succeeds : always_succeeds ok_tool.
Proof. intros args f e. by eexists _, _. Defined.

Lemma download_yt_video_success_sequence_witness :
  ∃ w' (removed : list string),
    download_yt_video ok_tool Scripted.http_err_match
      Scripted.media_filename Scripted.resolve "abcdefghijk" 65000 75000
      "/data" "ffmpeg" "ffprobe" "pcm_s16le" "wav" 48000 16 "h264" "mp4"
      "bestvideo" 30 2 (start ∅ ([], [])) =
    (Return (Some "/data/video/abcdefghijk_65.0_75.0.mp4",
             Some "/data/audio/abcdefghijk_65.0_75.0.wav"), w') ∧
    runs (trace w') =
      [sample_audio_args "abcdefghijk";
       ["ffmpeg"; "-n"; "-ss"; "65.0"; "-i";
        "https://media.example/abcdefghijk"; "-t"; "10"; "-f"; "mp4";
        "-crf"; "0"; "-preset"; "medium"; "-r"; "30"; "-an"; "-vcodec";
        "h264"; "/data/video/abcdefghijk_65.0_75.0.mp4"; "-loglevel";
        "error"];
       ["ffmpeg"; "-n"; "-i"; "/data/video/abcdefghijk_65.0_75.0.mp4";
        "-i"; "/data/audio/abcdefghijk_65.0_75.0.wav"; "-f"; "mp4"; "-r";
        "30"; "-vcodec"; "h264"; "-acodec"; "aac"; "-ar"; "48000"; "-ac";
        "2"; "-strict"; "experimental";
        "/data/video_audio/abcdefghijk_65.0_75.0.mp4"; "-loglevel";
        "error"]] ∧
    (∀ p : string, p ∉ removed).
Proof.
  destruct (download_yt_video_success_sequence (H := Decimal.num)
              (Env := script) ok_tool Scripted.http_err_match
              Scripted.media_filename Scripted.resolve "abcdefghijk" 65000
              75000 "/data" "ffmpeg" "ffprobe" "pcm_s16le" "wav" 48000 16
              "mp4" "bestvideo" 30 2 "https://media.example/abcdefghijk"
              (start ∅ ([], [])) ok_tool_always_succeeds)
    as (w' & removed & Hdl & Htr & Hrem).
  - lia.
  - reflexivity.
  - reflexivity.
  - exists w', removed. split; [exact Hdl|]. split.
    + rewrite Htr. cbn [trace start]. rewrite app_nil_l, runs_app, runs_removes.
      reflexivity.
    + intros p Hp. apply Hrem in Hp as [_ Hp]. by apply not_elem_of_empty in Hp.
Defined.

End MoreInstances.
